(** * Conditional rendering sample: recorded command stream and frame loop

    A shallow embedding of
    [application_sandbox/conditional_rendering/main.cpp]: the buffers the
    sample owns, the command buffer it records once per frame slot in
    [InitializeFrameData], and the per-frame [Update] / [Render] pair.

    Conventions.
    - 32-bit data is a [Z]: a [uint32_t] with its wrap-around written out,
      a [float] as its IEEE-754 binary32 bit pattern (only the literals
      [0.0f] and [1.0f] are ever inspected; all float arithmetic of the
      sample is kept behind parameters).
    - Device memory is a finite map from (buffer, byte offset of a region)
      to the 32-bit words stored in that region.
    - Anything the C++ leaves undefined (indexing past the end of a vector,
      submitting a command buffer that is not executable, reading a region
      nothing was written to) makes the model return [None]. *)

From Stdlib Require Import ZArith NArith List Lia.
From stdpp Require Import base option gmap list.

Local Open Scope Z_scope.

(** ** Scalars *)

Definition float := Z.
Definition float_0_0f : float := 0x00000000.
Definition float_1_0f : float := 0x3F800000.

Definition uint32 (z : Z) : Z := z mod 2 ^ 32.

(** [using Mat44 = mathfu::Matrix<float, 4, 4>]: sixteen floats. *)
Definition Mat44 := list float.

(** ** Vulkan enumerants and flag bits used by the sample *)

Definition VK_BUFFER_USAGE_UNIFORM_TEXEL_BUFFER_BIT : Z := 0x00000004.
Definition VK_BUFFER_USAGE_UNIFORM_BUFFER_BIT : Z := 0x00000010.
Definition VK_BUFFER_USAGE_STORAGE_BUFFER_BIT : Z := 0x00000020.
Definition VK_BUFFER_USAGE_CONDITIONAL_RENDERING_BIT_EXT : Z := 0x00000200.

Definition VK_CONDITIONAL_RENDERING_INVERTED_BIT_EXT : Z := 0x00000001.

Definition VK_ACCESS_SHADER_READ_BIT : Z := 0x00000020.
Definition VK_ACCESS_SHADER_WRITE_BIT : Z := 0x00000040.
Definition VK_ACCESS_HOST_WRITE_BIT : Z := 0x00004000.

Definition VK_PIPELINE_STAGE_FRAGMENT_SHADER_BIT : Z := 0x00000080.
Definition VK_PIPELINE_STAGE_COMPUTE_SHADER_BIT : Z := 0x00000800.
Definition VK_PIPELINE_STAGE_HOST_BIT : Z := 0x00004000.

Definition VK_IMAGE_ASPECT_COLOR_BIT : Z := 0x00000001.

Inductive VkDescriptorType :=
| VK_DESCRIPTOR_TYPE_UNIFORM_TEXEL_BUFFER
| VK_DESCRIPTOR_TYPE_UNIFORM_BUFFER
| VK_DESCRIPTOR_TYPE_STORAGE_BUFFER.

Inductive VkPipelineBindPoint :=
| VK_PIPELINE_BIND_POINT_GRAPHICS
| VK_PIPELINE_BIND_POINT_COMPUTE.

Inductive VkFormat := VK_FORMAT_R32_SFLOAT.

Inductive VkAttachmentLoadOp :=
| VK_ATTACHMENT_LOAD_OP_LOAD
| VK_ATTACHMENT_LOAD_OP_CLEAR
| VK_ATTACHMENT_LOAD_OP_DONT_CARE.

Inductive VkAttachmentStoreOp :=
| VK_ATTACHMENT_STORE_OP_STORE
| VK_ATTACHMENT_STORE_OP_DONT_CARE.

(** The four [VkBuffer] handles returned by [get_buffer()] of the four
    [BufferFrameData] members. *)
Inductive VkBuffer :=
| camera_buffer
| model_buffer
| dispatch_buffer
| conditional_buffer.

Global Instance VkBuffer_eq_dec : EqDecision VkBuffer.
Proof. solve_decision. Defined.

Global Instance VkBuffer_countable : Countable VkBuffer.
Proof.
  refine (inj_countable'
            (fun b => match b with
                      | camera_buffer => 0%nat
                      | model_buffer => 1%nat
                      | dispatch_buffer => 2%nat
                      | conditional_buffer => 3%nat
                      end)
            (fun n => match n with
                      | 0%nat => camera_buffer
                      | 1%nat => model_buffer
                      | 2%nat => dispatch_buffer
                      | _ => conditional_buffer
                      end) _).
  by intros [].
Defined.

(** The pipelines and pipeline layouts the sample creates. *)
Inductive Pipeline := cube_pipeline_ | compute_pipeline_.
Inductive PipelineLayout := pipeline_layout_ | compute_pipeline_layout_.

(** The two descriptor sets allocated per frame slot. *)
Inductive DescriptorSetHandle := cube_set | compute_set.

(** ** Device memory *)

(** A region of a buffer is named by the buffer and the byte offset at
    which the region starts; it holds the 32-bit words last stored there.
    Host copies and command buffers all go to the one render queue, so
    the model lets each take effect in submission order. *)
Abbreviation Device := (gmap (VkBuffer * N) (list Z)).

(** ** The sample's host-side structures (main.cpp, lines 487-501) *)

Record CameraData := { projection_matrix : Mat44 }.
Record ModelData := { transform : Mat44 }.
Record DispatchData := { value : float }.
Record ConditionalRenderingData := { condition : Z }.

(** What [sizeof(T)] and a [memcpy] of a [T] give for the four structs. *)
Class Pod (T : Type) := {
  sizeof : N;
  to_words : T -> list Z;
}.

Global Instance CameraData_pod : Pod CameraData :=
  {| sizeof := 64; to_words := projection_matrix |}.
Global Instance ModelData_pod : Pod ModelData :=
  {| sizeof := 64; to_words := transform |}.
Global Instance DispatchData_pod : Pod DispatchData :=
  {| sizeof := 4; to_words := fun d => [value d] |}.
Global Instance ConditionalRenderingData_pod : Pod ConditionalRenderingData :=
  {| sizeof := 4; to_words := fun d => [condition d] |}.

(** ** vulkan::BufferFrameData<T> *)

(** Modelled from the spec: [vulkan::BufferFrameData<T>]
    (vulkan_helpers/buffer_frame_data.h) is not among the sources.  The
    specification describes it as "per-swapchain-image copies of mutable
    buffers ... allowing the CPU to update frame N+1's data while frame N
    is still executing on the GPU"; main.cpp uses its constructor (with a
    copy count and usage flags), [data()], [get_buffer()],
    [get_offset_for_frame()], [size()], [aligned_data_size()] and
    [UpdateBuffer(queue, index, device_mask, force)].  The object holds one
    host-side value and, per copy, a flag telling whether the host value
    still has to be pushed to that copy: [Render] forces the update of the
    dispatch buffer "since it is updated by the GPU" (main.cpp, lines
    464-467), so an update that is not forced is one that may be skipped
    when the host value has not changed. *)
Record BufferFrameData (T : Type) := mkBufferFrameData {
  get_buffer : VkBuffer;
  usage : Z;
  buffered_data_count : nat;
  set_value_ : T;
  uninitialized_ : list bool;
}.
Arguments mkBufferFrameData {T}.
Arguments get_buffer {T}.
Arguments usage {T}.
Arguments buffered_data_count {T}.
Arguments set_value_ {T}.
Arguments uninitialized_ {T}.

Definition RoundUp (x a : N) : N := ((x + a - 1) / a * a)%N.

Section BufferFrameData.
(** [kMaxOffsetAlignment] is a constant of the absent helper library. *)
Variable kMaxOffsetAlignment : N.
Context {T : Type} `{Pod T}.

(** Modelled from the spec: the constructor of [BufferFrameData]
    (absent); it makes [buffered_data_count] copies, none of them pushed
    to the device yet. *)
Definition BufferFrameData_new (buffer : VkBuffer) (count : nat)
    (usage : Z) (init : T) : BufferFrameData T :=
  mkBufferFrameData buffer usage count init (replicate count true).

(** Modelled from the spec: [BufferFrameData::size()] (absent). *)
Definition size (b : BufferFrameData T) : N := sizeof.

(** Modelled from the spec: [BufferFrameData::aligned_data_size()]
    (absent). *)
Definition aligned_data_size (b : BufferFrameData T) : N :=
  RoundUp sizeof kMaxOffsetAlignment.

(** Modelled from the spec: [BufferFrameData::get_offset_for_frame()]
    (absent): the per-swapchain-image copies lie one after the other.
    Offsets are kept unbounded; a buffer with a handful of copies is
    nowhere near the range of a [size_t]. *)
Definition get_offset_for_frame (b : BufferFrameData T)
    (buffer_index : nat) : N :=
  (aligned_data_size b * N.of_nat buffer_index)%N.

(** Modelled from the spec: an assignment through
    [BufferFrameData::data()] (absent).  [data()] hands out a reference
    to the host value and marks every copy as stale. *)
Definition data_assign (f : T -> T) (b : BufferFrameData T)
    : BufferFrameData T :=
  mkBufferFrameData (get_buffer b) (usage b) (buffered_data_count b)
    (f (set_value_ b))
    (replicate (length (uninitialized_ b)) true).

(** Modelled from the spec: [BufferFrameData::UpdateBuffer] (absent).
    The host value is copied into copy [buffer_index] of the device
    buffer when that copy is stale or the caller forces the update. *)
Definition UpdateBuffer (b : BufferFrameData T) (buffer_index : nat)
    (force_update : bool) (dev : Device)
    : option (BufferFrameData T * Device) :=
  stale ← uninitialized_ b !! buffer_index;
  if stale || force_update then
    Some (mkBufferFrameData (get_buffer b) (usage b)
            (buffered_data_count b) (set_value_ b)
            (<[buffer_index := false]> (uninitialized_ b)),
          <[(get_buffer b, get_offset_for_frame b buffer_index)
              := to_words (set_value_ b)]> dev)
  else Some (b, dev).
End BufferFrameData.

(** ** Vulkan structures filled in by the sample *)

Record VkDescriptorBufferInfo := {
  dbi_buffer : VkBuffer;
  dbi_offset : N;
  dbi_range : N;
}.

Record VkBufferViewCreateInfo := {
  bv_flags : Z;
  bv_buffer : VkBuffer;
  bv_format : VkFormat;
  bv_offset : N;
  bv_range : N;
}.

(** [pBufferInfo] and [pTexelBufferView] point at the first of
    [descriptorCount] consecutive array elements; a null pointer is the
    empty list. *)
Record VkWriteDescriptorSet := {
  dstSet : DescriptorSetHandle;
  dstBinding : N;
  dstArrayElement : N;
  descriptorCount : nat;
  descriptorType : VkDescriptorType;
  pBufferInfo : list VkDescriptorBufferInfo;
  pTexelBufferView : list VkBufferViewCreateInfo;
}.

(** What a binding of a descriptor set refers to once written. *)
Inductive Descriptor :=
| BufferDescriptor (ty : VkDescriptorType) (info : VkDescriptorBufferInfo)
| TexelBufferDescriptor (ty : VkDescriptorType)
    (view : VkBufferViewCreateInfo).

Abbreviation DescriptorSet := (gmap N Descriptor).

Record VkConditionalRenderingBeginInfoEXT := {
  cr_buffer : VkBuffer;
  cr_offset : N;
  cr_flags : Z;
}.

Record VkBufferMemoryBarrier := {
  srcAccessMask : Z;
  dstAccessMask : Z;
  bmb_buffer : VkBuffer;
  bmb_offset : N;
  bmb_size : N;
}.

Record VkClearColorValue := {
  float32_0 : float;
  float32_1 : float;
  float32_2 : float;
  float32_3 : float;
}.

Record VkClearAttachment := {
  aspectMask : Z;
  colorAttachment : N;
  clearValue_color : VkClearColorValue;
}.

Record VkRect2D := {
  rect_offset : Z * Z;
  rect_extent : N * N;
}.

Record VkClearRect := {
  rect : VkRect2D;
  baseArrayLayer : N;
  layerCount : N;
}.

(** The framebuffer of a slot wraps the colour view the framework hands
    to that slot; the view is named by the slot's index. *)
Record VkFramebufferCreateInfo := {
  fb_attachment : nat;
  fb_width : N;
  fb_height : N;
  fb_layers : N;
}.

(** The one colour attachment of a render pass: what happens to its
    contents when the pass begins and ends. *)
Record VkAttachmentDescription := {
  loadOp : VkAttachmentLoadOp;
  storeOp : VkAttachmentStoreOp;
  stencilLoadOp : VkAttachmentLoadOp;
  stencilStoreOp : VkAttachmentStoreOp;
}.

(** The render pass created in [InitializeApplicationData] (main.cpp,
    lines 107-134): the attachment is loaded, not cleared. *)
Definition render_pass_ : VkAttachmentDescription :=
  {| loadOp := VK_ATTACHMENT_LOAD_OP_LOAD;
     storeOp := VK_ATTACHMENT_STORE_OP_STORE;
     stencilLoadOp := VK_ATTACHMENT_LOAD_OP_DONT_CARE;
     stencilStoreOp := VK_ATTACHMENT_STORE_OP_DONT_CARE |}.

Record VkRenderPassBeginInfo := {
  renderPass : VkAttachmentDescription;
  rp_framebuffer : VkFramebufferCreateInfo;
  renderArea : VkRect2D;
  clearValueCount : N;
  pClearValues : list VkClearColorValue;
}.

(** ** Command buffers *)

Inductive Command :=
| CmdPipelineBarrier (srcStageMask dstStageMask : Z)
    (pBufferMemoryBarriers : list VkBufferMemoryBarrier)
| CmdBeginConditionalRenderingEXT
    (pConditionalRenderingBegin : VkConditionalRenderingBeginInfoEXT)
| CmdEndConditionalRenderingEXT
| CmdBindPipeline (pipelineBindPoint : VkPipelineBindPoint)
    (pipeline : Pipeline)
| CmdBindDescriptorSets (pipelineBindPoint : VkPipelineBindPoint)
    (layout : PipelineLayout) (firstSet : N)
    (pDescriptorSets : list DescriptorSetHandle)
| CmdDispatch (groupCountX groupCountY groupCountZ : N)
| CmdBeginRenderPass (pRenderPassBegin : VkRenderPassBeginInfo)
| CmdClearAttachments (pAttachments : list VkClearAttachment)
    (pRects : list VkClearRect)
| CmdDrawModel (instance_count : N)
| CmdEndRenderPass.

Inductive CommandBufferState := Initial | Recording | Executable.

Record VkCommandBuffer := {
  cb_state : CommandBufferState;
  cb_commands : list Command;
}.

(** [app()->GetCommandBuffer()] *)
Definition GetCommandBuffer : VkCommandBuffer :=
  {| cb_state := Initial; cb_commands := [] |}.

Definition vkBeginCommandBuffer (cb : VkCommandBuffer) : VkCommandBuffer :=
  {| cb_state := Recording; cb_commands := [] |}.

Definition vkEndCommandBuffer (cb : VkCommandBuffer) : VkCommandBuffer :=
  match cb_state cb with
  | Recording => {| cb_state := Executable; cb_commands := cb_commands cb |}
  | _ => cb
  end.

(** Every [vkCmd*] call appends to a command buffer that is recording. *)
Definition vkCmd (c : Command) (cb : VkCommandBuffer) : VkCommandBuffer :=
  match cb_state cb with
  | Recording =>
      {| cb_state := Recording; cb_commands := cb_commands cb ++ [c] |}
  | _ => cb
  end.

(** Modelled from the spec: [VulkanModel::DrawInstanced]
    (vulkan_helpers/vulkan_model.h, absent) records the draw of the model
    with the given instance count. *)
Definition DrawInstanced (instance_count : N) (cb : VkCommandBuffer)
    : VkCommandBuffer :=
  vkCmd (CmdDrawModel instance_count) cb.

(** Modelled from the spec: [VulkanModel::Draw] (absent) records the draw
    of a single instance of the model ("Single black cube", main.cpp line
    354). *)
Definition Draw (cb : VkCommandBuffer) : VkCommandBuffer :=
  DrawInstanced 1 cb.

(** ** Descriptor set updates *)

(** One element of a write: array element [k] of the write lands in
    binding [dstBinding + k] (every binding of the sample's layouts has
    [descriptorCount = 1], so consecutive elements roll over to the next
    binding). *)
Definition write_element (w : VkWriteDescriptorSet) (k : nat)
    : option Descriptor :=
  match descriptorType w with
  | VK_DESCRIPTOR_TYPE_UNIFORM_TEXEL_BUFFER =>
      TexelBufferDescriptor (descriptorType w) <$> pTexelBufferView w !! k
  | ty => BufferDescriptor ty <$> pBufferInfo w !! k
  end.

Definition apply_write (w : VkWriteDescriptorSet) (set : DescriptorSet)
    : DescriptorSet :=
  foldl (fun set k =>
           match write_element w k with
           | Some d => <[(dstBinding w + N.of_nat k)%N := d]> set
           | None => set
           end)
        set (seq 0 (descriptorCount w)).

(** [vkUpdateDescriptorSets] restricted to the writes aimed at one set. *)
Definition vkUpdateDescriptorSets (writes : list VkWriteDescriptorSet)
    (h : DescriptorSetHandle) : DescriptorSet :=
  foldl (fun set w =>
           match w.(dstSet), h with
           | cube_set, cube_set | compute_set, compute_set =>
               apply_write w set
           | _, _ => set
           end)
        ∅ writes.

(** ** Frame data (main.cpp, lines 46-52) *)

Record ConditionalRenderingFrameData := {
  command_buffer_ : VkCommandBuffer;
  framebuffer_ : VkFramebufferCreateInfo;
  cube_descriptor_set_ : DescriptorSet;
  compute_descriptor_set_ : DescriptorSet;
  dispatch_data_buffer_view_ : VkBufferViewCreateInfo;
}.

(** ** The sample class (main.cpp, lines 60-519) *)

Record ConditionalRenderingSample := mkSample {
  camera_data_ : BufferFrameData CameraData;
  model_data_ : BufferFrameData ModelData;
  dispatch_data_ : BufferFrameData DispatchData;
  conditional_data_ : BufferFrameData ConditionalRenderingData;
  frames_since_last_notify_ : Z;
}.

(** ** What the GPU does with a submitted command buffer *)

Inductive GpuEvent :=
| Dispatched (region : VkBuffer * N) (written : list Z)
| Cleared (color : VkClearColorValue)
| Drawn (instance_count : N) (camera model texel : list Z).

Record Gpu := mkGpu {
  gpu_memory : Device;
  gpu_predicate : option bool;
  gpu_compute_set : option DescriptorSet;
  gpu_graphics_set : option DescriptorSet;
  gpu_events : list GpuEvent;
}.

Definition gpu_emit (evs : list GpuEvent) (g : Gpu) : Gpu :=
  mkGpu (gpu_memory g) (gpu_predicate g) (gpu_compute_set g)
    (gpu_graphics_set g) (gpu_events g ++ evs).

(** Commands subject to conditional rendering are discarded while the
    predicate of the enclosing conditional block is false. *)
Definition discarded (g : Gpu) : bool :=
  match gpu_predicate g with
  | Some false => true
  | _ => false
  end.

(** One submission: the command buffer, the device memory it started
    from, and what the GPU did. *)
Record Submission := {
  sub_command_buffer : VkCommandBuffer;
  sub_memory : Device;
  sub_events : list GpuEvent;
}.

Record VulkanApplication := mkApp {
  device : Device;
  render_queue : list Submission;
}.

(** ** A concrete instance

    Used to exercise the statements below: a rotation that leaves the
    model matrix alone and a compute shader that stores [1.0f]. *)

Definition example_rotate (t : float) (m : Mat44) : Mat44 := m.

Definition example_shader (ws : list Z) : list Z := [float_1_0f].

Section Sample.
(** Constants and code of the repository that are not in main.cpp. *)
Variable kMaxOffsetAlignment : N.
Variables swapchain_width swapchain_height : N.
(** The projection and model matrices computed with mathfu in
    [InitializeApplicationData] (lines 170-177). *)
Variables initial_projection initial_transform : Mat44.
(** [m * FromRotationMatrix(RotationX(3.14f * t) * RotationY(3.14f * t *
    0.5f))] of [Update] (lines 446-450). *)
Variable rotate : float -> Mat44 -> Mat44.
(** cube.comp.spv: what one invocation of the compute shader stores in
    the storage buffer bound at binding 0, given what it finds there. *)
Variable compute_shader : list Z -> list Z.

Abbreviation offset_for_frame := (get_offset_for_frame kMaxOffsetAlignment).
Abbreviation aligned_size := (aligned_data_size kMaxOffsetAlignment).

(** *** InitializeApplicationData (lines 71-201) *)

Definition InitializeApplicationData (num_swapchain_images : nat)
    : ConditionalRenderingSample :=
  let camera_data_ :=
    BufferFrameData_new camera_buffer num_swapchain_images
      VK_BUFFER_USAGE_UNIFORM_BUFFER_BIT {| projection_matrix := [] |} in
  let model_data_ :=
    BufferFrameData_new model_buffer num_swapchain_images
      VK_BUFFER_USAGE_UNIFORM_BUFFER_BIT {| transform := [] |} in
  let conditional_data_ :=
    BufferFrameData_new conditional_buffer num_swapchain_images
      VK_BUFFER_USAGE_CONDITIONAL_RENDERING_BIT_EXT {| condition := 0 |} in
  let dispatch_data_ :=
    BufferFrameData_new dispatch_buffer num_swapchain_images
      (Z.lor VK_BUFFER_USAGE_UNIFORM_TEXEL_BUFFER_BIT
         VK_BUFFER_USAGE_STORAGE_BUFFER_BIT)
      {| value := float_0_0f |} in
  let camera_data_ :=
    data_assign (fun _ => {| projection_matrix := initial_projection |})
      camera_data_ in
  let model_data_ :=
    data_assign (fun _ => {| transform := initial_transform |})
      model_data_ in
  let dispatch_data_ :=
    data_assign (fun _ => {| value := float_0_0f |}) dispatch_data_ in
  let conditional_data_ :=
    data_assign (fun _ => {| condition := 1 |}) conditional_data_ in
  mkSample camera_data_ model_data_ dispatch_data_ conditional_data_ 0.

(** *** InitializeFrameData (lines 203-442) *)

Definition dispatch_data_buffer_view_create_info
    (s : ConditionalRenderingSample) (frame_index : nat)
    : VkBufferViewCreateInfo :=
  {| bv_flags := 0;
     bv_buffer := get_buffer (dispatch_data_ s);
     bv_format := VK_FORMAT_R32_SFLOAT;
     bv_offset := offset_for_frame (dispatch_data_ s) frame_index;
     bv_range := aligned_size (dispatch_data_ s) |}.

Definition buffer_infos (s : ConditionalRenderingSample)
    (frame_index : nat) : list VkDescriptorBufferInfo :=
  [ {| dbi_buffer := get_buffer (camera_data_ s);
       dbi_offset := offset_for_frame (camera_data_ s) frame_index;
       dbi_range := size (camera_data_ s) |};
    {| dbi_buffer := get_buffer (model_data_ s);
       dbi_offset := offset_for_frame (model_data_ s) frame_index;
       dbi_range := size (model_data_ s) |};
    {| dbi_buffer := get_buffer (dispatch_data_ s);
       dbi_offset := offset_for_frame (dispatch_data_ s) frame_index;
       dbi_range := size (dispatch_data_ s) |} ].

Definition write (s : ConditionalRenderingSample) (frame_index : nat)
    : list VkWriteDescriptorSet :=
  [ {| dstSet := cube_set;
       dstBinding := 0;
       dstArrayElement := 0;
       descriptorCount := 2;
       descriptorType := VK_DESCRIPTOR_TYPE_UNIFORM_BUFFER;
       pBufferInfo := buffer_infos s frame_index;
       pTexelBufferView := [] |};
    (* Render pass: Dispatch buffer *)
    {| dstSet := cube_set;
       dstBinding := 2;
       dstArrayElement := 0;
       descriptorCount := 1;
       descriptorType := VK_DESCRIPTOR_TYPE_UNIFORM_TEXEL_BUFFER;
       pBufferInfo := [];
       pTexelBufferView :=
         [dispatch_data_buffer_view_create_info s frame_index] |};
    (* Compute pass: Dispatch buffer *)
    {| dstSet := compute_set;
       dstBinding := 0;
       dstArrayElement := 0;
       descriptorCount := 1;
       descriptorType := VK_DESCRIPTOR_TYPE_STORAGE_BUFFER;
       pBufferInfo := drop 2 (buffer_infos s frame_index);
       pTexelBufferView := [] |} ].

Definition framebuffer_create_info (frame_index : nat)
    : VkFramebufferCreateInfo :=
  {| fb_attachment := frame_index;
     fb_width := swapchain_width;
     fb_height := swapchain_height;
     fb_layers := 1 |}.

Definition pass_begin (frame_index : nat) : VkRenderPassBeginInfo :=
  {| renderPass := render_pass_;
     rp_framebuffer := framebuffer_create_info frame_index;
     renderArea := {| rect_offset := (0, 0);
                      rect_extent := (swapchain_width, swapchain_height) |};
     clearValueCount := 0;
     pClearValues := [] |}.

(* Two colorful cubes with a blue background *)
Definition conditional_begin1 (s : ConditionalRenderingSample)
    (frame_index : nat) : VkConditionalRenderingBeginInfoEXT :=
  {| cr_buffer := get_buffer (conditional_data_ s);
     cr_offset := offset_for_frame (conditional_data_ s) frame_index;
     cr_flags := 0 |}.

(* Single black cube with a pink background *)
Definition conditional_begin2 (s : ConditionalRenderingSample)
    (frame_index : nat) : VkConditionalRenderingBeginInfoEXT :=
  let conditional_begin2 := conditional_begin1 s frame_index in
  {| cr_buffer := cr_buffer conditional_begin2;
     cr_offset := cr_offset conditional_begin2;
     cr_flags := VK_CONDITIONAL_RENDERING_INVERTED_BIT_EXT |}.

Definition to_use_in_comp (s : ConditionalRenderingSample)
    (frame_index : nat) : VkBufferMemoryBarrier :=
  {| srcAccessMask := VK_ACCESS_HOST_WRITE_BIT;
     dstAccessMask :=
       Z.lor VK_ACCESS_SHADER_READ_BIT VK_ACCESS_SHADER_WRITE_BIT;
     bmb_buffer := get_buffer (dispatch_data_ s);
     bmb_offset := offset_for_frame (dispatch_data_ s) frame_index;
     bmb_size := aligned_size (dispatch_data_ s) |}.

Definition to_use_in_frag (s : ConditionalRenderingSample)
    (frame_index : nat) : VkBufferMemoryBarrier :=
  {| srcAccessMask :=
       Z.lor VK_ACCESS_SHADER_READ_BIT VK_ACCESS_SHADER_WRITE_BIT;
     dstAccessMask := VK_ACCESS_SHADER_READ_BIT;
     bmb_buffer := get_buffer (dispatch_data_ s);
     bmb_offset := offset_for_frame (dispatch_data_ s) frame_index;
     bmb_size := aligned_size (dispatch_data_ s) |}.

Definition clear_color : VkClearColorValue :=
  {| float32_0 := float_0_0f; float32_1 := float_1_0f;
     float32_2 := float_1_0f; float32_3 := float_1_0f |}.

Definition clear_color2 : VkClearColorValue :=
  {| float32_0 := float_1_0f; float32_1 := float_0_0f;
     float32_2 := float_1_0f; float32_3 := float_1_0f |}.

Definition clear_rect : VkClearRect :=
  {| rect := {| rect_offset := (0, 0);
                rect_extent := (swapchain_width, swapchain_height) |};
     baseArrayLayer := 0;
     layerCount := 1 |}.

(** Lines 328-441: the one place where commands are recorded. *)
Definition record_commands (s : ConditionalRenderingSample)
    (frame_index : nat) (command_buffer : VkCommandBuffer)
    : VkCommandBuffer :=
  let cmdBuffer := vkBeginCommandBuffer command_buffer in
  let cmdBuffer :=
    vkCmd (CmdPipelineBarrier VK_PIPELINE_STAGE_HOST_BIT
             VK_PIPELINE_STAGE_COMPUTE_SHADER_BIT
             [to_use_in_comp s frame_index]) cmdBuffer in
  let cmdBuffer :=
    vkCmd (CmdBeginConditionalRenderingEXT
             (conditional_begin1 s frame_index)) cmdBuffer in
  let cmdBuffer :=
    vkCmd (CmdBindPipeline VK_PIPELINE_BIND_POINT_COMPUTE
             compute_pipeline_) cmdBuffer in
  let cmdBuffer :=
    vkCmd (CmdBindDescriptorSets VK_PIPELINE_BIND_POINT_COMPUTE
             compute_pipeline_layout_ 0 [compute_set]) cmdBuffer in
  let cmdBuffer := vkCmd (CmdDispatch 1 1 1) cmdBuffer in
  let cmdBuffer := vkCmd CmdEndConditionalRenderingEXT cmdBuffer in
  let cmdBuffer :=
    vkCmd (CmdPipelineBarrier VK_PIPELINE_STAGE_COMPUTE_SHADER_BIT
             VK_PIPELINE_STAGE_FRAGMENT_SHADER_BIT
             [to_use_in_frag s frame_index]) cmdBuffer in
  let cmdBuffer :=
    vkCmd (CmdBeginRenderPass (pass_begin frame_index)) cmdBuffer in
  let cmdBuffer :=
    vkCmd (CmdBindPipeline VK_PIPELINE_BIND_POINT_GRAPHICS
             cube_pipeline_) cmdBuffer in
  let cmdBuffer :=
    vkCmd (CmdBindDescriptorSets VK_PIPELINE_BIND_POINT_GRAPHICS
             pipeline_layout_ 0 [cube_set]) cmdBuffer in
  let attachment :=
    {| aspectMask := VK_IMAGE_ASPECT_COLOR_BIT;
       colorAttachment := 0;
       clearValue_color := clear_color |} in
  let cmdBuffer :=
    vkCmd (CmdBeginConditionalRenderingEXT
             (conditional_begin1 s frame_index)) cmdBuffer in
  let cmdBuffer :=
    vkCmd (CmdClearAttachments [attachment] [clear_rect]) cmdBuffer in
  let cmdBuffer := DrawInstanced 2 cmdBuffer in
  let cmdBuffer := vkCmd CmdEndConditionalRenderingEXT cmdBuffer in
  let cmdBuffer :=
    vkCmd (CmdBeginConditionalRenderingEXT
             (conditional_begin2 s frame_index)) cmdBuffer in
  let attachment :=
    {| aspectMask := aspectMask attachment;
       colorAttachment := colorAttachment attachment;
       clearValue_color := clear_color2 |} in
  let cmdBuffer :=
    vkCmd (CmdClearAttachments [attachment] [clear_rect]) cmdBuffer in
  let cmdBuffer := Draw cmdBuffer in
  let cmdBuffer := vkCmd CmdEndConditionalRenderingEXT cmdBuffer in
  let cmdBuffer := vkCmd CmdEndRenderPass cmdBuffer in
  vkEndCommandBuffer cmdBuffer.

Definition InitializeFrameData (s : ConditionalRenderingSample)
    (frame_index : nat) : ConditionalRenderingFrameData :=
  {| command_buffer_ := record_commands s frame_index GetCommandBuffer;
     framebuffer_ := framebuffer_create_info frame_index;
     cube_descriptor_set_ :=
       vkUpdateDescriptorSets (write s frame_index) cube_set;
     compute_descriptor_set_ :=
       vkUpdateDescriptorSets (write s frame_index) compute_set;
     dispatch_data_buffer_view_ :=
       dispatch_data_buffer_view_create_info s frame_index |}.

(** *** Update (lines 444-456) *)

Definition Update (time_since_last_render : float)
    (s : ConditionalRenderingSample) : ConditionalRenderingSample :=
  let frames_since_last_notify_ :=
    uint32 (frames_since_last_notify_ s + 1) in
  let model_data_ :=
    data_assign
      (fun d =>
         {| transform := rotate time_since_last_render (transform d) |})
      (model_data_ s) in
  let conditional_data_ :=
    data_assign
      (fun _ =>
         {| condition :=
              Z.b2z (frames_since_last_notify_ mod 120 <? 60) |})
      (conditional_data_ s) in
  (* Reset alpha value to 0. *)
  let dispatch_data_ :=
    data_assign (fun _ => {| value := float_0_0f |}) (dispatch_data_ s) in
  mkSample (camera_data_ s) model_data_ dispatch_data_ conditional_data_
    frames_since_last_notify_.

(** *** Execution of a command buffer

    Modelled from the spec: the conditional-rendering and barrier
    primitives belong to the graphics API, not to the repository.
    Following the glossary, a conditional block reads the 32-bit value
    of its buffer region when it begins; dispatch, clear and draw
    commands inside the block are skipped when that value is zero, or,
    with the inverted flag, when it is non-zero.  The compute dispatch
    rewrites the storage buffer region bound at binding 0 of the
    compute set; a draw reads the uniform regions at bindings 0 and 1
    and the texel buffer view at binding 2 of the graphics set. *)

Definition resolve (fd : ConditionalRenderingFrameData)
    (h : DescriptorSetHandle) : DescriptorSet :=
  match h with
  | cube_set => cube_descriptor_set_ fd
  | compute_set => compute_descriptor_set_ fd
  end.

Definition begin_conditional (info : VkConditionalRenderingBeginInfoEXT)
    (g : Gpu) : option Gpu :=
  match gpu_predicate g with
  | Some _ => None
  | None =>
      ws ← gpu_memory g !! (cr_buffer info, cr_offset info);
      w ← head ws;
      let inverted :=
        negb (Z.land (cr_flags info)
                VK_CONDITIONAL_RENDERING_INVERTED_BIT_EXT =? 0) in
      Some (mkGpu (gpu_memory g) (Some (xorb (negb (w =? 0)) inverted))
              (gpu_compute_set g) (gpu_graphics_set g) (gpu_events g))
  end.

Definition end_conditional (g : Gpu) : option Gpu :=
  match gpu_predicate g with
  | None => None
  | Some _ =>
      Some (mkGpu (gpu_memory g) None (gpu_compute_set g)
              (gpu_graphics_set g) (gpu_events g))
  end.

Definition bind_descriptor_sets (fd : ConditionalRenderingFrameData)
    (bind_point : VkPipelineBindPoint) (sets : list DescriptorSetHandle)
    (g : Gpu) : option Gpu :=
  h ← head sets;
  match bind_point with
  | VK_PIPELINE_BIND_POINT_COMPUTE =>
      Some (mkGpu (gpu_memory g) (gpu_predicate g) (Some (resolve fd h))
              (gpu_graphics_set g) (gpu_events g))
  | VK_PIPELINE_BIND_POINT_GRAPHICS =>
      Some (mkGpu (gpu_memory g) (gpu_predicate g) (gpu_compute_set g)
              (Some (resolve fd h)) (gpu_events g))
  end.

Definition dispatch (g : Gpu) : option Gpu :=
  if discarded g then Some g
  else
    set ← gpu_compute_set g;
    d ← set !! 0%N;
    match d with
    | BufferDescriptor VK_DESCRIPTOR_TYPE_STORAGE_BUFFER info =>
        let region := (dbi_buffer info, dbi_offset info) in
        ws ← gpu_memory g !! region;
        let written := compute_shader ws in
        Some (mkGpu (<[region := written]> (gpu_memory g))
                (gpu_predicate g) (gpu_compute_set g)
                (gpu_graphics_set g)
                (gpu_events g ++ [Dispatched region written]))
    | _ => None
    end.

Definition clear_attachments (attachments : list VkClearAttachment)
    (g : Gpu) : option Gpu :=
  if discarded g then Some g
  else Some (gpu_emit (Cleared ∘ clearValue_color <$> attachments) g).

Definition uniform_words (set : DescriptorSet) (binding : N) (dev : Device)
    : option (list Z) :=
  d ← set !! binding;
  match d with
  | BufferDescriptor VK_DESCRIPTOR_TYPE_UNIFORM_BUFFER info =>
      dev !! (dbi_buffer info, dbi_offset info)
  | _ => None
  end.

Definition texel_words (set : DescriptorSet) (binding : N) (dev : Device)
    : option (list Z) :=
  d ← set !! binding;
  match d with
  | TexelBufferDescriptor VK_DESCRIPTOR_TYPE_UNIFORM_TEXEL_BUFFER view =>
      dev !! (bv_buffer view, bv_offset view)
  | _ => None
  end.

Definition draw_model (instance_count : N) (g : Gpu) : option Gpu :=
  if discarded g then Some g
  else
    set ← gpu_graphics_set g;
    camera ← uniform_words set 0 (gpu_memory g);
    model ← uniform_words set 1 (gpu_memory g);
    texel ← texel_words set 2 (gpu_memory g);
    Some (gpu_emit [Drawn instance_count camera model texel] g).

(** A render pass whose attachment is cleared on load clears it whatever
    any condition says; one that loads it leaves it alone. *)
Definition begin_render_pass (info : VkRenderPassBeginInfo) (g : Gpu)
    : Gpu :=
  match loadOp (renderPass info) with
  | VK_ATTACHMENT_LOAD_OP_CLEAR => gpu_emit (Cleared <$> pClearValues info) g
  | _ => g
  end.

Definition exec_command (fd : ConditionalRenderingFrameData) (c : Command)
    (g : Gpu) : option Gpu :=
  match c with
  | CmdPipelineBarrier _ _ _ => Some g
  | CmdBeginConditionalRenderingEXT info => begin_conditional info g
  | CmdEndConditionalRenderingEXT => end_conditional g
  | CmdBindPipeline _ _ => Some g
  | CmdBindDescriptorSets bind_point _ _ sets =>
      bind_descriptor_sets fd bind_point sets g
  | CmdDispatch _ _ _ => dispatch g
  | CmdBeginRenderPass info => Some (begin_render_pass info g)
  | CmdClearAttachments attachments _ => clear_attachments attachments g
  | CmdDrawModel instance_count => draw_model instance_count g
  | CmdEndRenderPass => Some g
  end.

Fixpoint exec_commands (fd : ConditionalRenderingFrameData)
    (cs : list Command) (g : Gpu) : option Gpu :=
  match cs with
  | [] => Some g
  | c :: cs => g' ← exec_command fd c g; exec_commands fd cs g'
  end.

Definition execute (fd : ConditionalRenderingFrameData) (dev : Device)
    : option Gpu :=
  match cb_state (command_buffer_ fd) with
  | Executable =>
      exec_commands fd (cb_commands (command_buffer_ fd))
        (mkGpu dev None None None [])
  | _ => None
  end.

(** [vkQueueSubmit] of the frame's command buffer on the render queue
    (lines 469-483). *)
Definition vkQueueSubmit (fd : ConditionalRenderingFrameData)
    (app : VulkanApplication) : option VulkanApplication :=
  g ← execute fd (device app);
  Some (mkApp (gpu_memory g)
          (render_queue app ++
             [ {| sub_command_buffer := command_buffer_ fd;
                  sub_memory := device app;
                  sub_events := gpu_events g |} ])).

(** *** Render (lines 458-484) *)

Definition Render (frame_index : nat)
    (frame_data : ConditionalRenderingFrameData)
    (s : ConditionalRenderingSample) (app : VulkanApplication)
    : option (ConditionalRenderingSample * VulkanApplication) :=
  (* Update our uniform buffers. *)
  '(camera_data_, dev) ←
    UpdateBuffer kMaxOffsetAlignment (camera_data_ s) frame_index false
      (device app);
  '(model_data_, dev) ←
    UpdateBuffer kMaxOffsetAlignment (model_data_ s) frame_index false dev;
  '(conditional_data_, dev) ←
    UpdateBuffer kMaxOffsetAlignment (conditional_data_ s) frame_index
      false dev;
  (* Force update for the compute shader buffer, since it is
     updated by the GPU. *)
  let forceUpdate := true in
  '(dispatch_data_, dev) ←
    UpdateBuffer kMaxOffsetAlignment (dispatch_data_ s) frame_index
      forceUpdate dev;
  app ← vkQueueSubmit frame_data (mkApp dev (render_queue app));
  Some (mkSample camera_data_ model_data_ dispatch_data_ conditional_data_
          (frames_since_last_notify_ s),
        app).

(** *** The surrounding framework

    Modelled from the spec: [sample_application::Sample<FrameData>]
    (application_sandbox/sample_application_framework, absent) owns one
    frame-data slot per swapchain image, initialises each slot once, and
    for every frame calls [Update] and then [Render] with the index and
    the slot of the image being rendered. *)

Record SampleApplication := mkSampleApplication {
  sample_ : ConditionalRenderingSample;
  app_ : VulkanApplication;
  frame_data_ : list ConditionalRenderingFrameData;
}.

Definition Initialize (num_swapchain_images : nat) : SampleApplication :=
  let s := InitializeApplicationData num_swapchain_images in
  mkSampleApplication s (mkApp ∅ [])
    (InitializeFrameData s <$> seq 0 num_swapchain_images).

Definition ProcessFrame (time_since_last_render : float)
    (image_index : nat) (a : SampleApplication)
    : option SampleApplication :=
  let s := Update time_since_last_render (sample_ a) in
  frame_data ← frame_data_ a !! image_index;
  '(s, app) ← Render image_index frame_data s (app_ a);
  Some (mkSampleApplication s app (frame_data_ a)).

Fixpoint run (frames : list (float * nat)) (a : SampleApplication)
    : option SampleApplication :=
  match frames with
  | [] => Some a
  | (t, i) :: frames => a' ← ProcessFrame t i a; run frames a'
  end.

(** The host state after [n] calls of [Update]; [times k] is the time
    step passed to call number [k + 1]. *)
Definition Update_n (times : N -> float) (n : N)
    (s : ConditionalRenderingSample) : ConditionalRenderingSample :=
  N.peano_rect (fun _ => ConditionalRenderingSample) s
    (fun k s => Update (times k) s) n.


(** ** Vocabulary of the properties *)

(** The region of copy [i] of a buffer. *)
Definition slot_size (b : VkBuffer) : N :=
  RoundUp
    match b with
    | camera_buffer => sizeof (T := CameraData)
    | model_buffer => sizeof (T := ModelData)
    | dispatch_buffer => sizeof (T := DispatchData)
    | conditional_buffer => sizeof (T := ConditionalRenderingData)
    end
    kMaxOffsetAlignment.

Definition slot (b : VkBuffer) (i : nat) : VkBuffer * N :=
  (b, (slot_size b * N.of_nat i)%N).

(** The frame data of slot [i] of an application with [n] swapchain
    images. *)
Abbreviation frame n i :=
  (InitializeFrameData (InitializeApplicationData n) i).

(** The states the application goes through. *)
Inductive reachable (n : nat) : SampleApplication -> Prop :=
| reachable_Initialize : reachable n (Initialize n)
| reachable_ProcessFrame a t i a' :
    reachable n a -> ProcessFrame t i a = Some a' -> reachable n a'.

(** A copy that is not marked stale holds the host value. *)
Definition pushed {T} `{Pod T} (b : BufferFrameData T) (dev : Device)
    : Prop :=
  forall j, uninitialized_ b !! j = Some false ->
    dev !! (get_buffer b, offset_for_frame b j)
    = Some (to_words (set_value_ b)).

(** The buffers of the sample are the four it allocated, each with [n]
    copies. *)
Record allocated (n : nat) (s : ConditionalRenderingSample) : Prop := {
  camera_is : get_buffer (camera_data_ s) = camera_buffer;
  model_is : get_buffer (model_data_ s) = model_buffer;
  dispatch_is : get_buffer (dispatch_data_ s) = dispatch_buffer;
  conditional_is : get_buffer (conditional_data_ s) = conditional_buffer;
  camera_copies : length (uninitialized_ (camera_data_ s)) = n;
  model_copies : length (uninitialized_ (model_data_ s)) = n;
  dispatch_copies : length (uninitialized_ (dispatch_data_ s)) = n;
  conditional_copies : length (uninitialized_ (conditional_data_ s)) = n;
}.

(** This is what lets [UpdateBuffer] skip a copy.  It holds for the three
    buffers only the host writes; the GPU breaks it for the dispatch
    buffer, whence the forced update in [Render]. *)
Definition coherent (s : ConditionalRenderingSample) (dev : Device)
    : Prop :=
  pushed (camera_data_ s) dev
  /\ pushed (model_data_ s) dev
  /\ pushed (conditional_data_ s) dev.

(** Every submission so far was the command buffer of some slot. *)
Definition submitted_from_slots (n : nat) (q : list Submission) : Prop :=
  Forall (fun sub => exists i, (i < n)%nat
            /\ sub_command_buffer sub = command_buffer_ (frame n i)) q.

Definition invariant (n : nat) (a : SampleApplication) : Prop :=
  allocated n (sample_ a)
  /\ coherent (sample_ a) (device (app_ a))
  /\ frame_data_ a = frame_data_ (Initialize n)
  /\ submitted_from_slots n (render_queue (app_ a)).

(** The events of a frame whose condition word is [v], whose scratch
    region holds [ws] and whose camera and model regions hold [c], [m]. *)
Definition frame_events (i : nat) (v : Z) (c m ws : list Z)
    : list GpuEvent :=
  if v =? 0 then [Cleared clear_color2; Drawn 1 c m ws]
  else [Dispatched (slot dispatch_buffer i) (compute_shader ws);
        Cleared clear_color;
        Drawn 2 c m (compute_shader ws)].

(** The device memory such a frame leaves, given the memory [dev] it
    started from. *)
Definition frame_memory (i : nat) (v : Z) (ws : list Z) (dev : Device)
    : Device :=
  if v =? 0 then dev
  else <[slot dispatch_buffer i := compute_shader ws]> dev.

(** Each command paired with the conditional block it is recorded in. *)
Fixpoint annotate (block : option VkConditionalRenderingBeginInfoEXT)
    (cs : list Command)
    : list (option VkConditionalRenderingBeginInfoEXT * Command) :=
  match cs with
  | [] => []
  | CmdBeginConditionalRenderingEXT info as c :: cs =>
      (block, c) :: annotate (Some info) cs
  | CmdEndConditionalRenderingEXT as c :: cs =>
      (block, c) :: annotate None cs
  | c :: cs => (block, c) :: annotate block cs
  end.

Definition is_draw_or_clear (c : Command) : bool :=
  match c with
  | CmdClearAttachments _ _ | CmdDrawModel _ => true
  | _ => false
  end.

Definition is_render_event (e : GpuEvent) : bool :=
  match e with
  | Cleared _ | Drawn _ _ _ _ => true
  | Dispatched _ _ => false
  end.

Definition is_dispatch (c : Command) : bool :=
  match c with
  | CmdDispatch _ _ _ => true
  | _ => false
  end.

(** The buffer regions a command names. *)
Definition command_regions (c : Command) : list (VkBuffer * N) :=
  match c with
  | CmdPipelineBarrier _ _ barriers =>
      (fun b => (bmb_buffer b, bmb_offset b)) <$> barriers
  | CmdBeginConditionalRenderingEXT info =>
      [(cr_buffer info, cr_offset info)]
  | _ => []
  end.

Definition descriptor_region (d : Descriptor) : VkBuffer * N :=
  match d with
  | BufferDescriptor _ info => (dbi_buffer info, dbi_offset info)
  | TexelBufferDescriptor _ view => (bv_buffer view, bv_offset view)
  end.

(** The regions consumed by the conditional blocks of a command buffer. *)
Definition conditional_regions (cs : list Command)
    : list (VkBuffer * N) :=
  flat_map (fun c =>
              match c with
              | CmdBeginConditionalRenderingEXT info =>
                  [(cr_buffer info, cr_offset info)]
              | _ => []
              end) cs.

(** The regions written by compute dispatches. *)
Definition dispatched_regions (evs : list GpuEvent)
    : list (VkBuffer * N) :=
  flat_map (fun e =>
              match e with
              | Dispatched region _ => [region]
              | _ => []
              end) evs.



(** ** Vocabulary of the further properties *)

(** What a run of frames submits, frame by frame, from a counter value
    and a model matrix on: the counter and the matrix advance as in
    [Update]; the projection is the initial one and the scratch word
    the 0 of [Update]. *)
Fixpoint expected_events (counter : Z) (model : Mat44)
    (frames : list (float * nat)) : list (list GpuEvent) :=
  match frames with
  | [] => []
  | (t, i) :: frames =>
      let counter := uint32 (counter + 1) in
      let model := rotate t model in
      frame_events i (Z.b2z (counter mod 120 <? 60)) initial_projection
        model [float_0_0f]
      :: expected_events counter model frames
  end.

(** What a region of device memory may hold while the sample runs. *)
Definition region_sane (region : VkBuffer * N) (ws : list Z) : Prop :=
  match region.1 with
  | camera_buffer => ws = initial_projection
  | model_buffer => True
  | conditional_buffer => ws = [0] \/ ws = [1]
  | dispatch_buffer =>
      ws = [float_0_0f] \/ ws = compute_shader [float_0_0f]
  end.

(** *** Descriptor set layouts and pipelines (main.cpp, lines 76-102,
    136-149, 183-200) *)







(** [CreateGraphicsPipeline] / [CreateComputePipeline] with their
    [AddShader] calls (lines 136-142 and 193-200): the layout, the bind
    point and the shader stages of each pipeline. *)
Definition pipeline_layout_of (p : Pipeline) : PipelineLayout :=
  match p with
  | cube_pipeline_ => pipeline_layout_
  | compute_pipeline_ => compute_pipeline_layout_
  end.

Definition pipeline_bind_point (p : Pipeline) : VkPipelineBindPoint :=
  match p with
  | cube_pipeline_ => VK_PIPELINE_BIND_POINT_GRAPHICS
  | compute_pipeline_ => VK_PIPELINE_BIND_POINT_COMPUTE
  end.


Definition descriptor_type (d : Descriptor) : VkDescriptorType :=
  match d with
  | BufferDescriptor ty _ | TexelBufferDescriptor ty _ => ty
  end.

(** *** Buffer usage *)

(** The usage flags the buffer behind a handle was created with (lines
    151-168). *)
Definition buffer_usage (s : ConditionalRenderingSample) (b : VkBuffer)
    : Z :=
  match b with
  | camera_buffer => usage (camera_data_ s)
  | model_buffer => usage (model_data_ s)
  | dispatch_buffer => usage (dispatch_data_ s)
  | conditional_buffer => usage (conditional_data_ s)
  end.

(** The usage bit a descriptor of a given type asks of its buffer. *)
Definition descriptor_usage (ty : VkDescriptorType) : Z :=
  match ty with
  | VK_DESCRIPTOR_TYPE_UNIFORM_TEXEL_BUFFER =>
      VK_BUFFER_USAGE_UNIFORM_TEXEL_BUFFER_BIT
  | VK_DESCRIPTOR_TYPE_UNIFORM_BUFFER => VK_BUFFER_USAGE_UNIFORM_BUFFER_BIT
  | VK_DESCRIPTOR_TYPE_STORAGE_BUFFER => VK_BUFFER_USAGE_STORAGE_BUFFER_BIT
  end.

Definition has_bits (flags bits : Z) : Prop := Z.land flags bits = bits.

(** *** Where a command may be recorded *)

(** What a validity check of a command stream keeps track of: whether a
    render pass is open, whether a conditional block is open and whether
    it was begun inside the render pass, and the pipeline and pipeline
    layout last bound at each bind point. *)
Record Recorder := mkRecorder {
  in_render_pass : bool;
  open_block : option bool;
  bound_pipeline : VkPipelineBindPoint -> option Pipeline;
  bound_layout : VkPipelineBindPoint -> option PipelineLayout;
}.

Definition bind_at {A} (bp : VkPipelineBindPoint) (x : A)
    (f : VkPipelineBindPoint -> option A)
    : VkPipelineBindPoint -> option A :=
  fun bp' =>
    match bp, bp' with
    | VK_PIPELINE_BIND_POINT_GRAPHICS, VK_PIPELINE_BIND_POINT_GRAPHICS
    | VK_PIPELINE_BIND_POINT_COMPUTE, VK_PIPELINE_BIND_POINT_COMPUTE =>
        Some x
    | _, _ => f bp'
    end.

(** A dispatch or draw needs a pipeline at its bind point, and
    descriptor sets bound with that pipeline's layout. *)
Definition ready (bp : VkPipelineBindPoint) (r : Recorder) : bool :=
  match bound_pipeline r bp, bound_layout r bp with
  | Some p, Some l =>
      match pipeline_layout_of p, l with
      | pipeline_layout_, pipeline_layout_
      | compute_pipeline_layout_, compute_pipeline_layout_ => true
      | _, _ => false
      end
  | _, _ => false
  end.

(** The rules: barriers and dispatches stay outside the render pass
    (which has no subpass dependency, line 133), clears and draws inside
    it; conditional blocks do not nest and end where they began, inside
    or outside the render pass; a pipeline is bound at its own bind
    point. *)
Definition check_command (c : Command) (r : Recorder) : option Recorder :=
  let keep := Some r in
  match c with
  | CmdPipelineBarrier _ _ _ =>
      if in_render_pass r then None else keep
  | CmdBeginConditionalRenderingEXT _ =>
      match open_block r with
      | Some _ => None
      | None =>
          Some (mkRecorder (in_render_pass r) (Some (in_render_pass r))
                  (bound_pipeline r) (bound_layout r))
      end
  | CmdEndConditionalRenderingEXT =>
      match open_block r with
      | Some inside =>
          if eqb inside (in_render_pass r) then
            Some (mkRecorder (in_render_pass r) None (bound_pipeline r)
                    (bound_layout r))
          else None
      | None => None
      end
  | CmdBindPipeline bp p =>
      match pipeline_bind_point p, bp with
      | VK_PIPELINE_BIND_POINT_GRAPHICS, VK_PIPELINE_BIND_POINT_GRAPHICS
      | VK_PIPELINE_BIND_POINT_COMPUTE, VK_PIPELINE_BIND_POINT_COMPUTE =>
          Some (mkRecorder (in_render_pass r) (open_block r)
                  (bind_at bp p (bound_pipeline r)) (bound_layout r))
      | _, _ => None
      end
  | CmdBindDescriptorSets bp l _ _ =>
      Some (mkRecorder (in_render_pass r) (open_block r)
              (bound_pipeline r) (bind_at bp l (bound_layout r)))
  | CmdDispatch _ _ _ =>
      if negb (in_render_pass r) && ready VK_PIPELINE_BIND_POINT_COMPUTE r
      then keep else None
  | CmdBeginRenderPass _ =>
      if in_render_pass r then None
      else Some (mkRecorder true (open_block r) (bound_pipeline r)
                   (bound_layout r))
  | CmdClearAttachments _ _ =>
      if in_render_pass r then keep else None
  | CmdDrawModel _ =>
      if in_render_pass r && ready VK_PIPELINE_BIND_POINT_GRAPHICS r
      then keep else None
  | CmdEndRenderPass =>
      match in_render_pass r, open_block r with
      | true, Some true => None
      | true, _ =>
          Some (mkRecorder false (open_block r) (bound_pipeline r)
                  (bound_layout r))
      | false, _ => None
      end
  end.

Fixpoint check_commands (cs : list Command) (r : Recorder)
    : option Recorder :=
  match cs with
  | [] => Some r
  | c :: cs => r' ← check_command c r; check_commands cs r'
  end.

Definition well_recorded (cb : VkCommandBuffer) : bool :=
  match cb_state cb,
        check_commands (cb_commands cb)
          (mkRecorder false None (fun _ => None) (fun _ => None)) with
  | Executable, Some r =>
      negb (in_render_pass r)
      && match open_block r with None => true | Some _ => false end
  | _, _ => false
  end.

(** *** Byte ranges *)

(** The bytes a command names: a buffer barrier covers [size] bytes
    from its offset, a conditional block reads the 32-bit word at its
    offset. *)
Definition command_extents (c : Command) : list (VkBuffer * N * N) :=
  match c with
  | CmdPipelineBarrier _ _ barriers =>
      (fun b => (bmb_buffer b, bmb_offset b, bmb_size b)) <$> barriers
  | CmdBeginConditionalRenderingEXT info =>
      [(cr_buffer info, cr_offset info, 4%N)]
  | _ => []
  end.

Definition descriptor_extent (d : Descriptor) : VkBuffer * N * N :=
  match d with
  | BufferDescriptor _ info =>
      (dbi_buffer info, dbi_offset info, dbi_range info)
  | TexelBufferDescriptor _ view =>
      (bv_buffer view, bv_offset view, bv_range view)
  end.

(** A non-empty range of bytes that lies inside copy [i] of its buffer. *)
Definition inside_copy (i : nat) (e : VkBuffer * N * N) : Prop :=
  let '(b, offset, len) := e in
  (0 < len
   /\ slot_size b * N.of_nat i <= offset
   /\ offset + len <= slot_size b * N.of_nat (S i))%N.

(** *** The entry point (main.cpp, lines 521-533) *)

(** What the surroundings answer in one turn of the loop: the two exit
    tests, and, if a frame is processed, the time step and the image
    the framework hands to it. *)
Record Turn := {
  should_exit : bool;
  WindowClosing : bool;
  turn_time : float;
  turn_image : nat;
}.

Inductive LogInfo := Application_Startup | Application_Shutdown.

(** [while (!sample.should_exit() && !data->WindowClosing())
    sample.ProcessFrame();] over the turns the surroundings provide;
    [None] when a frame is undefined or the turns run out before the
    loop ends. *)
Fixpoint frame_loop (turns : list Turn) (a : SampleApplication)
    : option SampleApplication :=
  match turns with
  | [] => None
  | turn :: turns =>
      if negb (should_exit turn) && negb (WindowClosing turn) then
        a' ← ProcessFrame (turn_time turn) (turn_image turn) a;
        frame_loop turns a'
      else Some a
  end.

(** The return value, the log and the final state. *)
Definition main_entry (num_swapchain_images : nat) (turns : list Turn)
    : option (Z * list LogInfo * SampleApplication) :=
  let log := [Application_Startup] in
  let sample := Initialize num_swapchain_images in
  sample ← frame_loop turns sample;
  let log := log ++ [Application_Shutdown] in
  Some (0, log, sample).

(** ** The host-side counter and condition flag *)

Lemma Update_n_succ times n s :
  Update_n times (N.succ n) s = Update (times n) (Update_n times n s).
Proof. unfold Update_n. by rewrite N.peano_rect_succ. Qed.

Lemma Update_frames t s :
  frames_since_last_notify_ (Update t s)
  = uint32 (frames_since_last_notify_ s + 1).
Proof. reflexivity. Qed.

Lemma Update_condition t s :
  condition (set_value_ (conditional_data_ (Update t s)))
  = Z.b2z (uint32 (frames_since_last_notify_ s + 1) mod 120 <? 60).
Proof. reflexivity. Qed.

Lemma Update_n_frames times n k :
  frames_since_last_notify_
    (Update_n times n (InitializeApplicationData k))
  = uint32 (Z.of_N n).
Proof.
  induction n as [|n IH] using N.peano_ind; [reflexivity|].
  rewrite Update_n_succ, Update_frames, IH. unfold uint32.
  rewrite N2Z.inj_succ, Zplus_mod_idemp_l. reflexivity.
Qed.

Lemma Update_n_condition times n k :
  condition
    (set_value_
       (conditional_data_ (Update_n times n (InitializeApplicationData k))))
  = Z.b2z (uint32 (Z.of_N n) mod 120 <? 60).
Proof.
  destruct n as [|n] using N.peano_ind; [reflexivity|].
  rewrite Update_n_succ, Update_condition, Update_n_frames. unfold uint32.
  rewrite N2Z.inj_succ, Zplus_mod_idemp_l. reflexivity.
Qed.


(** ** The recorded frame data *)

Lemma record_commands_eq s i :
  command_buffer_ (InitializeFrameData s i)
  = {| cb_state := Executable;
       cb_commands :=
         [ CmdPipelineBarrier VK_PIPELINE_STAGE_HOST_BIT
             VK_PIPELINE_STAGE_COMPUTE_SHADER_BIT [to_use_in_comp s i];
           CmdBeginConditionalRenderingEXT (conditional_begin1 s i);
           CmdBindPipeline VK_PIPELINE_BIND_POINT_COMPUTE compute_pipeline_;
           CmdBindDescriptorSets VK_PIPELINE_BIND_POINT_COMPUTE
             compute_pipeline_layout_ 0 [compute_set];
           CmdDispatch 1 1 1;
           CmdEndConditionalRenderingEXT;
           CmdPipelineBarrier VK_PIPELINE_STAGE_COMPUTE_SHADER_BIT
             VK_PIPELINE_STAGE_FRAGMENT_SHADER_BIT [to_use_in_frag s i];
           CmdBeginRenderPass (pass_begin i);
           CmdBindPipeline VK_PIPELINE_BIND_POINT_GRAPHICS cube_pipeline_;
           CmdBindDescriptorSets VK_PIPELINE_BIND_POINT_GRAPHICS
             pipeline_layout_ 0 [cube_set];
           CmdBeginConditionalRenderingEXT (conditional_begin1 s i);
           CmdClearAttachments
             [ {| aspectMask := VK_IMAGE_ASPECT_COLOR_BIT;
                  colorAttachment := 0;
                  clearValue_color := clear_color |} ] [clear_rect];
           CmdDrawModel 2;
           CmdEndConditionalRenderingEXT;
           CmdBeginConditionalRenderingEXT (conditional_begin2 s i);
           CmdClearAttachments
             [ {| aspectMask := VK_IMAGE_ASPECT_COLOR_BIT;
                  colorAttachment := 0;
                  clearValue_color := clear_color2 |} ] [clear_rect];
           CmdDrawModel 1;
           CmdEndConditionalRenderingEXT;
           CmdEndRenderPass ] |}.
Proof. reflexivity. Qed.

Lemma compute_set_eq s i :
  compute_descriptor_set_ (InitializeFrameData s i)
  = {[ 0%N := BufferDescriptor VK_DESCRIPTOR_TYPE_STORAGE_BUFFER
               {| dbi_buffer := get_buffer (dispatch_data_ s);
                  dbi_offset := offset_for_frame (dispatch_data_ s) i;
                  dbi_range := size (dispatch_data_ s) |} ]}.
Proof. reflexivity. Qed.

Lemma cube_set_eq s i :
  cube_descriptor_set_ (InitializeFrameData s i)
  = <[ 2%N := TexelBufferDescriptor VK_DESCRIPTOR_TYPE_UNIFORM_TEXEL_BUFFER
                (dispatch_data_buffer_view_create_info s i) ]>
    (<[ 1%N := BufferDescriptor VK_DESCRIPTOR_TYPE_UNIFORM_BUFFER
                {| dbi_buffer := get_buffer (model_data_ s);
                   dbi_offset := offset_for_frame (model_data_ s) i;
                   dbi_range := size (model_data_ s) |} ]>
    (<[ 0%N := BufferDescriptor VK_DESCRIPTOR_TYPE_UNIFORM_BUFFER
                {| dbi_buffer := get_buffer (camera_data_ s);
                   dbi_offset := offset_for_frame (camera_data_ s) i;
                   dbi_range := size (camera_data_ s) |} ]> ∅)).
Proof. reflexivity. Qed.

Lemma exec_commands_cons fd c cs g g' :
  exec_command fd c g = Some g' ->
  exec_commands fd (c :: cs) g = exec_commands fd cs g'.
Proof. intros Hstep. cbn [exec_commands]. by rewrite Hstep. Qed.

Lemma begin_conditional_run info g v rest :
  gpu_predicate g = None ->
  gpu_memory g !! (cr_buffer info, cr_offset info) = Some (v :: rest) ->
  begin_conditional info g
  = Some (mkGpu (gpu_memory g)
            (Some (xorb (negb (v =? 0))
                     (negb (Z.land (cr_flags info)
                              VK_CONDITIONAL_RENDERING_INVERTED_BIT_EXT
                            =? 0))))
            (gpu_compute_set g) (gpu_graphics_set g) (gpu_events g)).
Proof.
  intros Hp Hv. unfold begin_conditional. rewrite Hp, Hv. reflexivity.
Qed.

Lemma dispatch_run g p set info ws :
  gpu_predicate g = Some p ->
  gpu_compute_set g = Some set ->
  set !! 0%N
  = Some (BufferDescriptor VK_DESCRIPTOR_TYPE_STORAGE_BUFFER info) ->
  gpu_memory g !! (dbi_buffer info, dbi_offset info) = Some ws ->
  dispatch g
  = Some (if p then
            mkGpu (<[(dbi_buffer info, dbi_offset info)
                       := compute_shader ws]> (gpu_memory g))
              (gpu_predicate g) (gpu_compute_set g) (gpu_graphics_set g)
              (gpu_events g
                 ++ [Dispatched (dbi_buffer info, dbi_offset info)
                       (compute_shader ws)])
          else g).
Proof.
  intros Hp Hcs Hset Hws. unfold dispatch, discarded. rewrite Hp.
  destruct p; [|done]. rewrite Hcs. cbn [mbind option_bind].
  rewrite Hset. cbn [mbind option_bind]. by rewrite Hws.
Qed.

Lemma clear_attachments_run attachments g p :
  gpu_predicate g = Some p ->
  clear_attachments attachments g
  = Some (if p then
            gpu_emit (Cleared ∘ clearValue_color <$> attachments) g
          else g).
Proof.
  intros Hp. unfold clear_attachments, discarded. rewrite Hp.
  by destruct p.
Qed.

Lemma draw_model_run k g p set ci mi view c m t :
  gpu_predicate g = Some p ->
  gpu_graphics_set g = Some set ->
  set !! 0%N
  = Some (BufferDescriptor VK_DESCRIPTOR_TYPE_UNIFORM_BUFFER ci) ->
  set !! 1%N
  = Some (BufferDescriptor VK_DESCRIPTOR_TYPE_UNIFORM_BUFFER mi) ->
  set !! 2%N
  = Some (TexelBufferDescriptor VK_DESCRIPTOR_TYPE_UNIFORM_TEXEL_BUFFER
            view) ->
  gpu_memory g !! (dbi_buffer ci, dbi_offset ci) = Some c ->
  gpu_memory g !! (dbi_buffer mi, dbi_offset mi) = Some m ->
  gpu_memory g !! (bv_buffer view, bv_offset view) = Some t ->
  draw_model k g
  = Some (if p then gpu_emit [Drawn k c m t] g else g).
Proof.
  intros Hp Hgs H0 H1 H2 Hc Hm Ht. unfold draw_model, discarded.
  rewrite Hp. destruct p; [|done]. rewrite Hgs. cbn [mbind option_bind].
  unfold uniform_words, texel_words. rewrite H0, H1, H2.
  cbn [mbind option_bind]. rewrite Hc. cbn [mbind option_bind].
  rewrite Hm. cbn [mbind option_bind]. by rewrite Ht.
Qed.

Lemma end_conditional_run g p :
  gpu_predicate g = Some p ->
  end_conditional g
  = Some (mkGpu (gpu_memory g) None (gpu_compute_set g)
            (gpu_graphics_set g) (gpu_events g)).
Proof. intros Hp. unfold end_conditional. by rewrite Hp. Qed.

Ltac gpu_state :=
  cbn [gpu_memory gpu_predicate gpu_compute_set gpu_graphics_set gpu_events
       gpu_emit xorb negb app fmap list_fmap compose].
Ltac gpu_next tac :=
  erewrite exec_commands_cons; [|cbn [exec_command]; tac]; gpu_state.
Ltac gpu_plain := gpu_next ltac:(reflexivity).
Ltac gpu_begin H :=
  gpu_next ltac:(eapply begin_conditional_run; [reflexivity|exact H]).
Ltac gpu_end := gpu_next ltac:(eapply end_conditional_run; reflexivity).
Ltac gpu_dispatch H :=
  gpu_next ltac:(eapply dispatch_run;
                 [reflexivity|reflexivity|reflexivity|exact H]).
Ltac gpu_clear :=
  gpu_next ltac:(eapply clear_attachments_run; reflexivity).
Ltac gpu_draw Hc Hm Ht :=
  gpu_next ltac:(eapply draw_model_run;
                 [reflexivity|reflexivity|reflexivity|reflexivity
                 |reflexivity|exact Hc|exact Hm|exact Ht]).

Lemma execute_frame n i dev v rest ws c m :
  dev !! slot conditional_buffer i = Some (v :: rest) ->
  dev !! slot dispatch_buffer i = Some ws ->
  dev !! slot camera_buffer i = Some c ->
  dev !! slot model_buffer i = Some m ->
  execute (frame n i) dev
  = Some
      (if v =? 0 then
         mkGpu dev None
           (Some (compute_descriptor_set_ (frame n i)))
           (Some (cube_descriptor_set_ (frame n i)))
           [Cleared clear_color2; Drawn 1 c m ws]
       else
         mkGpu (<[slot dispatch_buffer i := compute_shader ws]> dev) None
           (Some (compute_descriptor_set_ (frame n i)))
           (Some (cube_descriptor_set_ (frame n i)))
           [Dispatched (slot dispatch_buffer i) (compute_shader ws);
            Cleared clear_color;
            Drawn 2 c m (compute_shader ws)]).
Proof.
  intros Hc Hd Hcam Hm.
  unfold execute. rewrite record_commands_eq. cbn [cb_state cb_commands].
  destruct (v =? 0) eqn:Hv.
  - gpu_plain. gpu_begin Hc. rewrite Hv. gpu_plain. gpu_plain.
    gpu_dispatch Hd. gpu_end. gpu_plain. gpu_plain. gpu_plain. gpu_plain.
    gpu_begin Hc. rewrite Hv. gpu_clear. gpu_draw Hcam Hm Hd. gpu_end.
    gpu_begin Hc. rewrite Hv. gpu_clear. gpu_draw Hcam Hm Hd. gpu_end.
    gpu_plain. reflexivity.
  - set (dev' := <[slot dispatch_buffer i := compute_shader ws]> dev).
    assert (Hc' : dev' !! slot conditional_buffer i = Some (v :: rest))
      by (subst dev'; rewrite lookup_insert_ne; [exact Hc|by intros [=]]).
    assert (Hcam' : dev' !! slot camera_buffer i = Some c)
      by (subst dev'; rewrite lookup_insert_ne; [exact Hcam|by intros [=]]).
    assert (Hm' : dev' !! slot model_buffer i = Some m)
      by (subst dev'; rewrite lookup_insert_ne; [exact Hm|by intros [=]]).
    assert (Hd' : dev' !! slot dispatch_buffer i = Some (compute_shader ws))
      by (subst dev'; apply lookup_insert_eq).
    gpu_plain. gpu_begin Hc. rewrite Hv. gpu_plain. gpu_plain.
    gpu_dispatch Hd. gpu_end. gpu_plain. gpu_plain. gpu_plain. gpu_plain.
    gpu_begin Hc'. rewrite Hv. gpu_clear. gpu_draw Hcam' Hm' Hd'. gpu_end.
    gpu_begin Hc'. rewrite Hv. gpu_clear. gpu_draw Hcam' Hm' Hd'. gpu_end.
    gpu_plain. reflexivity.
Qed.


(** ** Host updates *)

Lemma UpdateBuffer_run {T} `{Pod T} (b : BufferFrameData T) i force dev :
  (i < length (uninitialized_ b))%nat ->
  force = true \/ pushed b dev ->
  exists b' dev',
    UpdateBuffer kMaxOffsetAlignment b i force dev = Some (b', dev')
    /\ get_buffer b' = get_buffer b
    /\ set_value_ b' = set_value_ b
    /\ length (uninitialized_ b') = length (uninitialized_ b)
    /\ dev' !! (get_buffer b, offset_for_frame b i)
       = Some (to_words (set_value_ b))
    /\ (forall k, k <> (get_buffer b, offset_for_frame b i) ->
          dev' !! k = dev !! k)
    /\ (pushed b dev -> pushed b' dev').
Proof.
  intros Hi Hforce. unfold UpdateBuffer.
  destruct (lookup_lt_is_Some_2 _ _ Hi) as [stale Hstale].
  rewrite Hstale. cbn [mbind option_bind].
  destruct (stale || force) eqn:Hupd.
  - eexists _, _. split; [reflexivity|]. cbn [get_buffer set_value_ uninitialized_].
    repeat split.
    + apply length_insert.
    + apply lookup_insert_eq.
    + intros k Hk. by apply lookup_insert_ne.
    + intros Hp j Hj.
      change (<[(get_buffer b, offset_for_frame b i)
                  := to_words (set_value_ b)]> dev
                !! (get_buffer b, offset_for_frame b j)
              = Some (to_words (set_value_ b))).
      destruct (decide (offset_for_frame b j = offset_for_frame b i))
        as [->|Hne].
      * apply lookup_insert_eq.
      * rewrite lookup_insert_ne by congruence.
        apply Hp. cbn [uninitialized_] in Hj.
        destruct (decide (i = j)) as [->|Hij]; [done|].
        by rewrite list_lookup_insert_ne in Hj.
  - apply orb_false_elim in Hupd as [-> ->].
    destruct Hforce as [|Hp]; [done|].
    eexists _, _. split; [reflexivity|]. repeat split; auto.
Qed.


Lemma pushed_other {T} `{Pod T} (b : BufferFrameData T) dev dev' :
  pushed b dev ->
  (forall o, dev' !! (get_buffer b, o) = dev !! (get_buffer b, o)) ->
  pushed b dev'.
Proof. intros Hp Hsame j Hj. rewrite Hsame. by apply Hp. Qed.

Lemma frame_memory_other i v ws dev k :
  k <> slot dispatch_buffer i -> frame_memory i v ws dev !! k = dev !! k.
Proof.
  intros Hk. unfold frame_memory. destruct (v =? 0); [done|].
  by apply lookup_insert_ne.
Qed.

Lemma Render_run n s app i :
  allocated n s -> (i < n)%nat -> coherent s (device app) ->
  exists s' app' sub,
    Render i (frame n i) s app = Some (s', app')
    /\ render_queue app' = render_queue app ++ [sub]
    /\ sub_command_buffer sub = command_buffer_ (frame n i)
    /\ sub_memory sub !! slot camera_buffer i
       = Some (to_words (set_value_ (camera_data_ s)))
    /\ sub_memory sub !! slot model_buffer i
       = Some (to_words (set_value_ (model_data_ s)))
    /\ sub_memory sub !! slot conditional_buffer i
       = Some (to_words (set_value_ (conditional_data_ s)))
    /\ sub_memory sub !! slot dispatch_buffer i
       = Some (to_words (set_value_ (dispatch_data_ s)))
    /\ (forall k, (forall b, k <> slot b i) ->
          sub_memory sub !! k = device app !! k)
    /\ sub_events sub
       = frame_events i (condition (set_value_ (conditional_data_ s)))
           (to_words (set_value_ (camera_data_ s)))
           (to_words (set_value_ (model_data_ s)))
           (to_words (set_value_ (dispatch_data_ s)))
    /\ device app'
       = frame_memory i (condition (set_value_ (conditional_data_ s)))
           (to_words (set_value_ (dispatch_data_ s))) (sub_memory sub)
    /\ set_value_ (camera_data_ s') = set_value_ (camera_data_ s)
    /\ set_value_ (model_data_ s') = set_value_ (model_data_ s)
    /\ set_value_ (conditional_data_ s') = set_value_ (conditional_data_ s)
    /\ set_value_ (dispatch_data_ s') = set_value_ (dispatch_data_ s)
    /\ frames_since_last_notify_ s' = frames_since_last_notify_ s
    /\ allocated n s'
    /\ coherent s' (device app').
Proof.
  intros [Bc Bm Bd Bk Lc Lm Ld Lk] Hi (Pc & Pm & Pk).
  destruct (UpdateBuffer_run (camera_data_ s) i false (device app))
    as (c1 & d1 & E1 & B1 & V1 & L1 & W1 & O1 & P1); [lia|by right|].
  assert (Pm1 : pushed (model_data_ s) d1).
  { apply (pushed_other _ _ _ Pm). intros o. apply O1.
    rewrite Bc, Bm. by intros [=]. }
  destruct (UpdateBuffer_run (model_data_ s) i false d1)
    as (c2 & d2 & E2 & B2 & V2 & L2 & W2 & O2 & P2); [lia|by right|].
  assert (Pk2 : pushed (conditional_data_ s) d2).
  { apply (pushed_other _ (device app)); [done|]. intros o.
    rewrite O2, O1; [done| |]; rewrite ?Bc, ?Bm, Bk; by intros [=]. }
  destruct (UpdateBuffer_run (conditional_data_ s) i false d2)
    as (c3 & d3 & E3 & B3 & V3 & L3 & W3 & O3 & P3); [lia|by right|].
  destruct (UpdateBuffer_run (dispatch_data_ s) i true d3)
    as (c4 & d4 & E4 & B4 & V4 & L4 & W4 & O4 & _); [lia|by left|].
  rewrite Bc in W1, O1. rewrite Bm in W2, O2. rewrite Bk in W3, O3.
  rewrite Bd in W4, O4.
  change (camera_buffer, _) with (slot camera_buffer i) in W1, O1.
  change (model_buffer, _) with (slot model_buffer i) in W2, O2.
  change (conditional_buffer, _) with (slot conditional_buffer i) in W3, O3.
  change (dispatch_buffer, _) with (slot dispatch_buffer i) in W4, O4.
  assert (Hcam : d4 !! slot camera_buffer i
                 = Some (to_words (set_value_ (camera_data_ s)))).
  { rewrite O4, O3, O2 by (by intros [=]). exact W1. }
  assert (Hmod : d4 !! slot model_buffer i
                 = Some (to_words (set_value_ (model_data_ s)))).
  { rewrite O4, O3 by (by intros [=]). exact W2. }
  assert (Hcond : d4 !! slot conditional_buffer i
                  = Some (to_words (set_value_ (conditional_data_ s)))).
  { rewrite O4 by (by intros [=]). exact W3. }
  pose proof (execute_frame n i d4 _ [] _ _ _ Hcond W4 Hcam Hmod) as Hexec.
  unfold Render. rewrite E1. cbn [mbind option_bind].
  rewrite E2. cbn [mbind option_bind]. rewrite E3. cbn [mbind option_bind].
  rewrite E4. cbn [mbind option_bind]. unfold vkQueueSubmit.
  cbn [device render_queue]. rewrite Hexec. cbn [mbind option_bind].
  eexists _, _, _. split; [reflexivity|].
  cbn [render_queue device sub_command_buffer sub_memory sub_events
       camera_data_ model_data_ conditional_data_ dispatch_data_
       frames_since_last_notify_].
  assert (Hdev : forall k, k <> slot dispatch_buffer i ->
            gpu_memory
              (if condition (set_value_ (conditional_data_ s)) =? 0
               then mkGpu d4 None
                      (Some (compute_descriptor_set_ (frame n i)))
                      (Some (cube_descriptor_set_ (frame n i)))
                      [Cleared clear_color2;
                       Drawn 1 (to_words (set_value_ (camera_data_ s)))
                         (to_words (set_value_ (model_data_ s)))
                         (to_words (set_value_ (dispatch_data_ s)))]
               else mkGpu
                      (<[slot dispatch_buffer i :=
                           compute_shader
                             (to_words (set_value_ (dispatch_data_ s)))]>
                         d4)
                      None
                      (Some (compute_descriptor_set_ (frame n i)))
                      (Some (cube_descriptor_set_ (frame n i)))
                      [Dispatched (slot dispatch_buffer i)
                         (compute_shader
                            (to_words (set_value_ (dispatch_data_ s))));
                       Cleared clear_color;
                       Drawn 2 (to_words (set_value_ (camera_data_ s)))
                         (to_words (set_value_ (model_data_ s)))
                         (compute_shader
                            (to_words (set_value_ (dispatch_data_ s))))])
              !! k = d4 !! k).
  { intros k Hk. destruct (_ =? 0); cbn [gpu_memory]; [done|].
    by apply lookup_insert_ne. }
  repeat split; try done;
    cbn [render_queue device sub_command_buffer sub_memory sub_events
         camera_data_ model_data_ conditional_data_ dispatch_data_
         frames_since_last_notify_]; try congruence.
  - intros k Hk. rewrite O4, O3, O2, O1 by apply Hk. done.
  - unfold frame_events. by destruct (_ =? 0).
  - unfold frame_memory. by destruct (_ =? 0).
  - apply (pushed_other _ d1); [by apply P1|]. intros o.
    rewrite Hdev, O4, O3, O2; [done|..]; rewrite B1, Bc; by intros [=].
  - apply (pushed_other _ d2); [by apply P2|]. intros o.
    rewrite Hdev, O4, O3; [done|..]; rewrite B2, Bm; by intros [=].
  - apply (pushed_other _ d3); [by apply P3|]. intros o.
    rewrite Hdev, O4; [done|..]; rewrite B3, Bk; by intros [=].
Qed.


(** ** The frame loop keeps its invariant *)

Lemma Initialize_allocated n : allocated n (InitializeApplicationData n).
Proof.
  split; try reflexivity; cbn; by rewrite !length_replicate.
Qed.

Lemma pushed_data_assign {T} `{Pod T} f (b : BufferFrameData T) dev :
  pushed (data_assign f b) dev.
Proof.
  intros j Hj. cbn [data_assign uninitialized_] in Hj.
  apply lookup_replicate in Hj as [[=] _].
Qed.

Lemma Update_allocated n t s : allocated n s -> allocated n (Update t s).
Proof.
  intros [Bc Bm Bd Bk Lc Lm Ld Lk].
  split; cbn; rewrite ?length_replicate; done.
Qed.

Lemma Update_coherent t s dev : coherent s dev -> coherent (Update t s) dev.
Proof.
  intros (Pc & _ & _). repeat split; [exact Pc|..];
    apply pushed_data_assign.
Qed.

Lemma Initialize_invariant n : invariant n (Initialize n).
Proof.
  repeat split; try apply Initialize_allocated;
    try apply pushed_data_assign.
  apply Forall_nil_2.
Qed.

Lemma frame_data_lookup n i :
  (i < n)%nat -> frame_data_ (Initialize n) !! i = Some (frame n i).
Proof.
  intros Hi. cbn [Initialize frame_data_].
  by rewrite list_lookup_fmap, lookup_seq_lt.
Qed.

Lemma frame_data_lookup_inv n i fd :
  frame_data_ (Initialize n) !! i = Some fd ->
  (i < n)%nat /\ fd = frame n i.
Proof.
  intros Hfd. pose proof (lookup_lt_Some _ _ _ Hfd) as Hi.
  cbn [Initialize frame_data_] in Hi. rewrite length_fmap, length_seq in Hi.
  rewrite frame_data_lookup in Hfd by done. by injection Hfd as <-.
Qed.

Lemma ProcessFrame_run n a t i :
  invariant n a -> (i < n)%nat ->
  exists s' app' sub,
    frame_data_ a !! i = Some (frame n i)
    /\ Render i (frame n i) (Update t (sample_ a)) (app_ a)
       = Some (s', app')
    /\ ProcessFrame t i a
       = Some (mkSampleApplication s' app' (frame_data_ a))
    /\ invariant n (mkSampleApplication s' app' (frame_data_ a))
    /\ render_queue app' = render_queue (app_ a) ++ [sub]
    /\ sub_command_buffer sub = command_buffer_ (frame n i)
    /\ sub_memory sub !! slot camera_buffer i
       = Some (to_words (set_value_ (camera_data_ (Update t (sample_ a)))))
    /\ sub_memory sub !! slot model_buffer i
       = Some (to_words (set_value_ (model_data_ (Update t (sample_ a)))))
    /\ sub_memory sub !! slot conditional_buffer i
       = Some (to_words
                 (set_value_ (conditional_data_ (Update t (sample_ a)))))
    /\ sub_memory sub !! slot dispatch_buffer i
       = Some (to_words
                 (set_value_ (dispatch_data_ (Update t (sample_ a)))))
    /\ (forall k, (forall b, k <> slot b i) ->
          sub_memory sub !! k = device (app_ a) !! k)
    /\ sub_events sub
       = frame_events i
           (condition
              (set_value_ (conditional_data_ (Update t (sample_ a)))))
           (to_words (set_value_ (camera_data_ (Update t (sample_ a)))))
           (to_words (set_value_ (model_data_ (Update t (sample_ a)))))
           (to_words (set_value_ (dispatch_data_ (Update t (sample_ a)))))
    /\ device app'
       = frame_memory i
           (condition
              (set_value_ (conditional_data_ (Update t (sample_ a)))))
           (to_words (set_value_ (dispatch_data_ (Update t (sample_ a)))))
           (sub_memory sub)
    /\ set_value_ (conditional_data_ s')
       = set_value_ (conditional_data_ (Update t (sample_ a)))
    /\ frames_since_last_notify_ s'
       = frames_since_last_notify_ (Update t (sample_ a)).
Proof.
  intros (Ha & Hc & Hfd & Hq) Hi.
  destruct (Render_run n (Update t (sample_ a)) (app_ a) i)
    as (s' & app' & sub & HR & Q & CB & Mc & Mm & Mk & Md & Mo & Ev & Dv
        & Vc & Vm & Vk & Vd & Fr & Ha' & Hc');
    [by apply Update_allocated|done|by apply Update_coherent|].
  exists s', app', sub.
  assert (Hlook : frame_data_ a !! i = Some (frame n i))
    by (rewrite Hfd; by apply frame_data_lookup).
  split; [done|]. split; [done|]. split.
  { unfold ProcessFrame. rewrite Hlook. cbn [mbind option_bind].
    by rewrite HR. }
  split.
  { split; [done|]. split; [done|]. split; [done|].
    cbn [app_ render_queue]. rewrite Q. apply Forall_app_2; [done|].
    apply Forall_singleton. by exists i. }
  repeat split; done.
Qed.

Lemma ProcessFrame_index n a t i a' :
  invariant n a -> ProcessFrame t i a = Some a' -> (i < n)%nat.
Proof.
  intros (_ & _ & Hfd & _) Hstep. unfold ProcessFrame in Hstep.
  destruct (frame_data_ a !! i) as [fd|] eqn:Hlook; [|done].
  rewrite Hfd in Hlook. by apply frame_data_lookup_inv in Hlook as [? _].
Qed.

Lemma reachable_invariant n a : reachable n a -> invariant n a.
Proof.
  induction 1 as [|a t i a' _ IH Hstep]; [apply Initialize_invariant|].
  pose proof (ProcessFrame_index _ _ _ _ _ IH Hstep) as Hi.
  destruct (ProcessFrame_run n a t i IH Hi)
    as (s' & app' & sub & _ & _ & Hrun & Hinv & _).
  rewrite Hrun in Hstep. by injection Hstep as <-.
Qed.


(** ** Runs *)

Lemma run_app frames1 frames2 a :
  run (frames1 ++ frames2) a = run frames1 a ≫= run frames2.
Proof.
  revert a. induction frames1 as [|[t i] frames1 IH]; intros a; [done|].
  cbn [app run]. destruct (ProcessFrame t i a) as [a'|]; [|done].
  cbn [mbind option_bind]. apply IH.
Qed.

Lemma run_reachable n frames a0 a :
  reachable n a0 -> run frames a0 = Some a ->
  reachable n a
  /\ frames_since_last_notify_ (sample_ a)
     = uint32 (frames_since_last_notify_ (sample_ a0)
               + Z.of_nat (length frames)).
Proof.
  revert a0. induction frames as [|[t i] frames IH]; intros a0 Hreach Hrun.
  - injection Hrun as <-. split; [done|].
    rewrite Z.add_0_r.
    clear -Hreach. induction Hreach as [|a t i a' Hreach IH Hstep].
    + reflexivity.
    + apply reachable_invariant in Hreach.
      pose proof (ProcessFrame_index _ _ _ _ _ Hreach Hstep) as Hi.
      destruct (ProcessFrame_run n a t i Hreach Hi)
        as (s' & app' & sub & _ & _ & Hrun & _ & _ & _ & _ & _ & _ & _ & _
            & _ & _ & _ & Fr).
      rewrite Hrun in Hstep. injection Hstep as <-. cbn [sample_].
      rewrite Fr, Update_frames. unfold uint32.
      by rewrite Z.mod_mod.
  - cbn [run] in Hrun.
    destruct (ProcessFrame t i a0) as [a1|] eqn:Hstep; [|done].
    cbn [mbind option_bind] in Hrun.
    destruct (IH a1 (reachable_ProcessFrame _ _ _ _ _ Hreach Hstep) Hrun)
      as [Hreach' Hcount].
    split; [done|]. rewrite Hcount.
    apply reachable_invariant in Hreach.
    pose proof (ProcessFrame_index _ _ _ _ _ Hreach Hstep) as Hi.
    destruct (ProcessFrame_run n a0 t i Hreach Hi)
      as (s' & app' & sub & _ & _ & Hrun' & _ & _ & _ & _ & _ & _ & _ & _
          & _ & _ & _ & Fr).
    rewrite Hrun' in Hstep. injection Hstep as <-. cbn [sample_].
    rewrite Fr, Update_frames. unfold uint32. cbn [length].
    rewrite Zplus_mod_idemp_l. f_equal. lia.
Qed.


(** ** Slots are distinct regions *)

Lemma slot_size_pos b :
  (0 < kMaxOffsetAlignment)%N -> (0 < slot_size b)%N.
Proof.
  intros Ha. unfold slot_size, RoundUp.
  apply N.mul_pos_pos; [|done].
  apply N.div_str_pos. destruct b; cbn [sizeof CameraData_pod ModelData_pod
    DispatchData_pod ConditionalRenderingData_pod]; lia.
Qed.


(** ** The claims *)


(** C2.  The command buffer of every slot ends with two conditional
    blocks over the slot's condition region: one with flags 0 that
    clears to cyan and draws two instances of the cube, one with the
    inverted flag that clears to magenta and draws one; there is no
    clear or draw before them.  Whatever the condition word is, the
    frame clears and draws exactly once, with the first branch when the
    word is non-zero and with the second when it is zero. *)
Theorem C2_two_branches_one_executes n i dev v rest ws c m :
  dev !! slot conditional_buffer i = Some (v :: rest) ->
  dev !! slot dispatch_buffer i = Some ws ->
  dev !! slot camera_buffer i = Some c ->
  dev !! slot model_buffer i = Some m ->
  let cyan := {| float32_0 := float_0_0f; float32_1 := float_1_0f;
                 float32_2 := float_1_0f; float32_3 := float_1_0f |} in
  let magenta := {| float32_0 := float_1_0f; float32_1 := float_0_0f;
                    float32_2 := float_1_0f; float32_3 := float_1_0f |} in
  let clear color :=
    CmdClearAttachments
      [ {| aspectMask := VK_IMAGE_ASPECT_COLOR_BIT;
           colorAttachment := 0;
           clearValue_color := color |} ] [clear_rect] in
  let begin flags :=
    CmdBeginConditionalRenderingEXT
      {| cr_buffer := conditional_buffer;
         cr_offset := (slot conditional_buffer i).2;
         cr_flags := flags |} in
  (exists pre,
     cb_commands (command_buffer_ (frame n i))
     = pre ++ [ begin 0; clear cyan; CmdDrawModel 2;
                CmdEndConditionalRenderingEXT;
                begin VK_CONDITIONAL_RENDERING_INVERTED_BIT_EXT;
                clear magenta; CmdDrawModel 1;
                CmdEndConditionalRenderingEXT;
                CmdEndRenderPass ]
     /\ filter is_draw_or_clear pre = [])
  /\ exists g,
       execute (frame n i) dev = Some g
       /\ filter is_render_event (gpu_events g)
          = if v =? 0 then [Cleared magenta; Drawn 1 c m ws]
            else [Cleared cyan; Drawn 2 c m (compute_shader ws)].
Proof.
  intros Hc Hd Hcam Hm cyan magenta clear begin. split.
  - rewrite record_commands_eq. cbn [cb_commands].
    match goal with |- exists pre, ?l = _ /\ _ => exists (take 10 l) end.
    split; reflexivity.
  - rewrite (execute_frame n i dev v rest ws c m Hc Hd Hcam Hm).
    eexists. split; [reflexivity|]. by destruct (v =? 0).
Qed.


(** C3.  [InitializeFrameData] leaves in every slot an executable
    command buffer holding the fixed sequence: host-to-compute barrier,
    conditional compute dispatch, compute-to-fragment barrier, render
    pass with the two conditional branches.  The slots of a running
    application are the [n] results of [InitializeFrameData], one per
    index; a frame never changes them, and what it submits is the
    command buffer of its slot as it was recorded. *)
Theorem C3_recorded_once_resubmitted n a :
  reachable n a ->
  (forall i,
     command_buffer_ (InitializeFrameData (InitializeApplicationData n) i)
     = {| cb_state := Executable;
          cb_commands :=
            [ CmdPipelineBarrier VK_PIPELINE_STAGE_HOST_BIT
                VK_PIPELINE_STAGE_COMPUTE_SHADER_BIT
                [to_use_in_comp (InitializeApplicationData n) i];
              CmdBeginConditionalRenderingEXT
                (conditional_begin1 (InitializeApplicationData n) i);
              CmdBindPipeline VK_PIPELINE_BIND_POINT_COMPUTE
                compute_pipeline_;
              CmdBindDescriptorSets VK_PIPELINE_BIND_POINT_COMPUTE
                compute_pipeline_layout_ 0 [compute_set];
              CmdDispatch 1 1 1;
              CmdEndConditionalRenderingEXT;
              CmdPipelineBarrier VK_PIPELINE_STAGE_COMPUTE_SHADER_BIT
                VK_PIPELINE_STAGE_FRAGMENT_SHADER_BIT
                [to_use_in_frag (InitializeApplicationData n) i];
              CmdBeginRenderPass (pass_begin i);
              CmdBindPipeline VK_PIPELINE_BIND_POINT_GRAPHICS
                cube_pipeline_;
              CmdBindDescriptorSets VK_PIPELINE_BIND_POINT_GRAPHICS
                pipeline_layout_ 0 [cube_set];
              CmdBeginConditionalRenderingEXT
                (conditional_begin1 (InitializeApplicationData n) i);
              CmdClearAttachments
                [ {| aspectMask := VK_IMAGE_ASPECT_COLOR_BIT;
                     colorAttachment := 0;
                     clearValue_color := clear_color |} ] [clear_rect];
              CmdDrawModel 2;
              CmdEndConditionalRenderingEXT;
              CmdBeginConditionalRenderingEXT
                (conditional_begin2 (InitializeApplicationData n) i);
              CmdClearAttachments
                [ {| aspectMask := VK_IMAGE_ASPECT_COLOR_BIT;
                     colorAttachment := 0;
                     clearValue_color := clear_color2 |} ] [clear_rect];
              CmdDrawModel 1;
              CmdEndConditionalRenderingEXT;
              CmdEndRenderPass ] |})
  /\ frame_data_ a
     = InitializeFrameData (InitializeApplicationData n) <$> seq 0 n
  /\ Forall (fun sub => exists i, (i < n)%nat
               /\ sub_command_buffer sub
                  = command_buffer_
                      (InitializeFrameData (InitializeApplicationData n) i))
       (render_queue (app_ a))
  /\ (forall t i, (i < n)%nat ->
        exists a' sub,
          ProcessFrame t i a = Some a'
          /\ frame_data_ a' = frame_data_ a
          /\ render_queue (app_ a') = render_queue (app_ a) ++ [sub]
          /\ sub_command_buffer sub
             = command_buffer_
                 (InitializeFrameData (InitializeApplicationData n) i))
  /\ (forall t i a',
        ProcessFrame t i a = Some a' -> frame_data_ a' = frame_data_ a).
Proof.
  intros Hreach. apply reachable_invariant in Hreach.
  split; [intros i; apply record_commands_eq|].
  split; [apply Hreach|]. split; [apply Hreach|]. split.
  - intros t i Hi.
    destruct (ProcessFrame_run n a t i Hreach Hi)
      as (s' & app' & sub & _ & _ & Hrun & _ & Q & CB & _).
    eexists _, sub. split; [exact Hrun|]. done.
  - intros t i a' Hstep.
    pose proof (ProcessFrame_index _ _ _ _ _ Hreach Hstep) as Hi.
    destruct (ProcessFrame_run n a t i Hreach Hi)
      as (s' & app' & sub & _ & _ & Hrun & _).
    rewrite Hrun in Hstep. by injection Hstep as <-.
Qed.

(** C4.  In the command buffer of every slot the only dispatch comes
    first, then the buffer barrier from the compute stage to the
    fragment stage, then the render pass with every clear and draw.  The
    barrier covers the slot's region of the dispatch buffer, offset and
    aligned size; that is the region the dispatch has bound as its
    storage buffer and the region of the texel buffer view the draws
    read through. *)
Theorem C4_barrier_between_dispatch_and_render_pass n i :
  let barrier :=
    {| srcAccessMask :=
         Z.lor VK_ACCESS_SHADER_READ_BIT VK_ACCESS_SHADER_WRITE_BIT;
       dstAccessMask := VK_ACCESS_SHADER_READ_BIT;
       bmb_buffer := dispatch_buffer;
       bmb_offset := (slot dispatch_buffer i).2;
       bmb_size := slot_size dispatch_buffer |} in
  (exists pre mid post,
     cb_commands (command_buffer_ (frame n i))
     = pre ++ [CmdDispatch 1 1 1] ++ mid
       ++ [CmdPipelineBarrier VK_PIPELINE_STAGE_COMPUTE_SHADER_BIT
             VK_PIPELINE_STAGE_FRAGMENT_SHADER_BIT [barrier];
           CmdBeginRenderPass (pass_begin i)]
       ++ post
     /\ filter is_dispatch (pre ++ mid ++ post) = []
     /\ filter is_draw_or_clear (pre ++ mid) = []
     /\ filter is_draw_or_clear post
        = [ CmdClearAttachments
              [ {| aspectMask := VK_IMAGE_ASPECT_COLOR_BIT;
                   colorAttachment := 0;
                   clearValue_color := clear_color |} ] [clear_rect];
            CmdDrawModel 2;
            CmdClearAttachments
              [ {| aspectMask := VK_IMAGE_ASPECT_COLOR_BIT;
                   colorAttachment := 0;
                   clearValue_color := clear_color2 |} ] [clear_rect];
            CmdDrawModel 1 ])
  /\ compute_descriptor_set_ (frame n i) !! 0%N
     = Some (BufferDescriptor VK_DESCRIPTOR_TYPE_STORAGE_BUFFER
               {| dbi_buffer := bmb_buffer barrier;
                  dbi_offset := bmb_offset barrier;
                  dbi_range := 4 |})
  /\ cube_descriptor_set_ (frame n i) !! 2%N
     = Some (TexelBufferDescriptor VK_DESCRIPTOR_TYPE_UNIFORM_TEXEL_BUFFER
               {| bv_flags := 0;
                  bv_buffer := bmb_buffer barrier;
                  bv_format := VK_FORMAT_R32_SFLOAT;
                  bv_offset := bmb_offset barrier;
                  bv_range := bmb_size barrier |})
  /\ dispatch_data_buffer_view_ (frame n i)
     = {| bv_flags := 0;
          bv_buffer := bmb_buffer barrier;
          bv_format := VK_FORMAT_R32_SFLOAT;
          bv_offset := bmb_offset barrier;
          bv_range := bmb_size barrier |}.
Proof.
  intros barrier. split; [|by repeat split].
  rewrite record_commands_eq. cbn [cb_commands].
  match goal with
  | |- exists pre mid post, ?l = _ /\ _ =>
      exists (take 4 l), (take 1 (drop 5 l)), (drop 8 l)
  end.
  by repeat split.
Qed.

(** C5.  Each of the four buffers is created with as many copies as
    there are swapchain images.  The frame data of slot [i] holds these
    references, and no other: in the cube set, binding 0 is copy [i] of
    the camera buffer, binding 1 copy [i] of the model buffer and
    binding 2 a view of copy [i] of the dispatch buffer; in the compute
    set, binding 0 is copy [i] of the dispatch buffer; the texel buffer
    view starts at copy [i] of the dispatch buffer; the commands name,
    in order, copy [i] of the dispatch buffer (host-to-compute barrier),
    of the condition buffer (block of the dispatch), of the dispatch
    buffer (compute-to-fragment barrier) and twice of the condition
    buffer (the two draw branches).  So every descriptor, the view,
    every conditional block and every barrier uses the offset of slot
    [i], and the barriers and the view span the aligned size of one
    copy.  The region of copy [i] of a buffer is the buffer's handle
    with its [get_offset_for_frame(i)]. *)
Theorem C5_references_use_own_slot n i :
  let s := InitializeApplicationData n in
  let own_slot (r : VkBuffer * N) := r = slot r.1 i in
  (buffered_data_count (camera_data_ s) = n
   /\ buffered_data_count (model_data_ s) = n
   /\ buffered_data_count (conditional_data_ s) = n
   /\ buffered_data_count (dispatch_data_ s) = n)
  /\ (length (uninitialized_ (camera_data_ s)) = n
      /\ length (uninitialized_ (model_data_ s)) = n
      /\ length (uninitialized_ (conditional_data_ s)) = n
      /\ length (uninitialized_ (dispatch_data_ s)) = n)
  /\ map_Forall (fun _ d => own_slot (descriptor_region d))
       (cube_descriptor_set_ (InitializeFrameData s i))
  /\ map_Forall (fun _ d => own_slot (descriptor_region d))
       (compute_descriptor_set_ (InitializeFrameData s i))
  /\ own_slot
       (bv_buffer (dispatch_data_buffer_view_ (InitializeFrameData s i)),
        bv_offset (dispatch_data_buffer_view_ (InitializeFrameData s i)))
  /\ bv_range (dispatch_data_buffer_view_ (InitializeFrameData s i))
     = slot_size dispatch_buffer
  /\ Forall (fun c => Forall own_slot (command_regions c))
       (cb_commands (command_buffer_ (InitializeFrameData s i)))
  /\ Forall (fun c =>
               match c with
               | CmdPipelineBarrier _ _ barriers =>
                   Forall (fun b => bmb_size b = slot_size (bmb_buffer b))
                     barriers
               | _ => True
               end)
       (cb_commands (command_buffer_ (InitializeFrameData s i)))
  /\ (descriptor_region
        <$> cube_descriptor_set_ (InitializeFrameData s i) !! 0%N
      = Some (slot camera_buffer i)
      /\ descriptor_region
           <$> cube_descriptor_set_ (InitializeFrameData s i) !! 1%N
         = Some (slot model_buffer i)
      /\ descriptor_region
           <$> cube_descriptor_set_ (InitializeFrameData s i) !! 2%N
         = Some (slot dispatch_buffer i)
      /\ dom (cube_descriptor_set_ (InitializeFrameData s i))
         = {[0%N; 1%N; 2%N]})
  /\ (descriptor_region
        <$> compute_descriptor_set_ (InitializeFrameData s i) !! 0%N
      = Some (slot dispatch_buffer i)
      /\ dom (compute_descriptor_set_ (InitializeFrameData s i))
         = {[0%N]})
  /\ (bv_buffer (dispatch_data_buffer_view_ (InitializeFrameData s i)),
      bv_offset (dispatch_data_buffer_view_ (InitializeFrameData s i)))
     = slot dispatch_buffer i
  /\ flat_map command_regions
       (cb_commands (command_buffer_ (InitializeFrameData s i)))
     = [ slot dispatch_buffer i; slot conditional_buffer i;
         slot dispatch_buffer i; slot conditional_buffer i;
         slot conditional_buffer i ]
  /\ flat_map
       (fun c =>
          match c with
          | CmdPipelineBarrier _ _ barriers =>
              (fun b => (bmb_buffer b, bmb_offset b, bmb_size b))
                <$> barriers
          | _ => []
          end)
       (cb_commands (command_buffer_ (InitializeFrameData s i)))
     = [ (dispatch_buffer, (slot dispatch_buffer i).2,
          slot_size dispatch_buffer);
         (dispatch_buffer, (slot dispatch_buffer i).2,
          slot_size dispatch_buffer) ]
  /\ (slot camera_buffer i
      = (get_buffer (camera_data_ s),
         offset_for_frame (camera_data_ s) i)
      /\ slot model_buffer i
         = (get_buffer (model_data_ s),
            offset_for_frame (model_data_ s) i)
      /\ slot conditional_buffer i
         = (get_buffer (conditional_data_ s),
            offset_for_frame (conditional_data_ s) i)
      /\ slot dispatch_buffer i
         = (get_buffer (dispatch_data_ s),
            offset_for_frame (dispatch_data_ s) i)).
Proof.
  intros s own_slot.
  split; [by repeat split|].
  split; [by destruct (Initialize_allocated n)|].
  split.
  { rewrite cube_set_eq.
    repeat (apply map_Forall_insert_2; [reflexivity|]).
    apply map_Forall_empty. }
  split.
  { rewrite compute_set_eq. apply map_Forall_insert_2; [reflexivity|].
    apply map_Forall_empty. }
  split; [reflexivity|]. split; [reflexivity|].
  rewrite record_commands_eq. cbn [cb_commands].
  split; [repeat constructor|]. split; [repeat constructor|].
  split.
  { rewrite cube_set_eq. do 3 (split; [reflexivity|]).
    rewrite !dom_insert_L, dom_empty_L. set_solver. }
  split.
  { rewrite compute_set_eq. split; [reflexivity|].
    apply dom_singleton_L. }
  by repeat split.
Qed.

(** C7.  In the command buffer of every slot, each of the four
    clear-attachments and draw commands is recorded inside a conditional
    block, and that block reads the slot's region of the condition
    buffer; the render pass itself loads its attachment, so nothing is
    cleared outside a block either. *)
Theorem C7_draws_and_clears_are_conditional n :
  Forall2
    (fun i fd =>
       let gated :=
         filter (fun '(block, c) => is_draw_or_clear c)
           (annotate None (cb_commands (command_buffer_ fd))) in
       gated.*2 = filter is_draw_or_clear (cb_commands (command_buffer_ fd))
       /\ length gated = 4%nat
       /\ Forall
            (fun c =>
               match c with
               | CmdBeginRenderPass info =>
                   loadOp (renderPass info) = VK_ATTACHMENT_LOAD_OP_LOAD
               | _ => True
               end)
            (cb_commands (command_buffer_ fd))
       /\ Forall
            (fun '(block, c) =>
               exists info, block = Some info
                 /\ (cr_buffer info, cr_offset info)
                    = slot conditional_buffer i)
            gated)
    (seq 0 n) (frame_data_ (Initialize n)).
Proof.
  cbn [Initialize frame_data_]. apply Forall2_fmap_r, Forall_Forall2_diag.
  apply Forall_forall. intros i _. unfold compose.
  cbv beta zeta. rewrite record_commands_eq.
  cbn [cb_commands]. split; [reflexivity|]. split; [reflexivity|].
  split; repeat constructor; by eexists.
Qed.



(** C8 (amended).  The frame counter is a 32-bit unsigned integer.
    After the [n]-th call of [Update] the flag is 1 exactly when
    [(n mod 2^32) mod 120 < 60], and 0 otherwise; as long as [n] is
    below [2^32] this is [n mod 120 < 60].  The [Render] that follows
    the [n]-th [Update] copies that flag into the condition region of
    the slot it submits. *)
Theorem C8_condition_flag_period k times n :
  let flag :=
    condition
      (set_value_
         (conditional_data_
            (Update_n times n (InitializeApplicationData k)))) in
  flag = Z.b2z ((Z.of_N n mod 2 ^ 32) mod 120 <? 60)
  /\ ((n < 2 ^ 32)%N ->
      (flag = 1 <-> Z.of_N n mod 120 < 60)
      /\ (flag = 0 <-> 60 <= Z.of_N n mod 120))
  /\ (forall frames t i a,
        (N.of_nat (length frames) + 1)%N = n ->
        run (frames ++ [(t, i)]) (Initialize k) = Some a ->
        condition (set_value_ (conditional_data_ (sample_ a))) = flag
        /\ exists sub,
             last (render_queue (app_ a)) = Some sub
             /\ sub_memory sub !! slot conditional_buffer i = Some [flag]).
Proof.
  intros flag. subst flag. rewrite Update_n_condition. unfold uint32.
  split; [reflexivity|]. split.
  - intros Hn. rewrite (Z.mod_small (Z.of_N n)) by lia.
    destruct (Z.ltb_spec (Z.of_N n mod 120) 60); cbn [Z.b2z]; lia.
  - intros frames t i a Hlen Hrun. rewrite run_app in Hrun.
    destruct (run frames (Initialize k)) as [a1|] eqn:Hrun1; [|done].
    cbn [mbind option_bind run] in Hrun.
    destruct (ProcessFrame t i a1) as [a2|] eqn:Hstep; [|done].
    cbn [mbind option_bind] in Hrun. injection Hrun as ->.
    destruct (run_reachable k frames _ _ (reachable_Initialize k) Hrun1)
      as [Hreach Hcount].
    apply reachable_invariant in Hreach.
    pose proof (ProcessFrame_index _ _ _ _ _ Hreach Hstep) as Hi.
    destruct (ProcessFrame_run k a1 t i Hreach Hi)
      as (s' & app' & sub & _ & _ & Hrun' & _ & Q & _ & _ & _ & Mk & _ & _
          & _ & _ & Vk & _).
    rewrite Hrun' in Hstep. injection Hstep as <-. cbn [sample_ app_].
    assert (Hflag :
      condition (set_value_ (conditional_data_ (Update t (sample_ a1))))
      = Z.b2z ((Z.of_N n mod 2 ^ 32) mod 120 <? 60)).
    { rewrite Update_condition, Hcount. unfold uint32.
      change (frames_since_last_notify_ (sample_ (Initialize k))) with 0.
      rewrite Zplus_mod_idemp_l.
      replace (0 + Z.of_nat (length frames) + 1) with (Z.of_N n) by lia.
      reflexivity. }
    rewrite Vk, Hflag. split; [reflexivity|].
    exists sub. rewrite Q, last_snoc. split; [reflexivity|].
    rewrite Mk. cbn [to_words ConditionalRenderingData_pod].
    by rewrite Hflag.
Qed.


(** C10.  In the command buffer of every slot the dispatch is recorded
    inside a conditional block with flags 0 over the slot's condition
    region, the region of the two draw branches.  In a frame whose
    condition flag is 0 no dispatch executes, the scratch region keeps
    the 0 the host wrote, and the only clear and draw are those of the
    inverted branch, whose draw reads that 0. *)
Theorem C10_dispatch_skipped_when_condition_zero n a t i :
  reachable n a -> (i < n)%nat ->
  condition (set_value_ (conditional_data_ (Update t (sample_ a)))) = 0 ->
  filter (fun '(_, c) => is_dispatch c)
    (annotate None (cb_commands (command_buffer_ (frame n i))))
  = [ (Some {| cr_buffer := conditional_buffer;
               cr_offset := (slot conditional_buffer i).2;
               cr_flags := 0 |},
       CmdDispatch 1 1 1) ]
  /\ conditional_regions (cb_commands (command_buffer_ (frame n i)))
     = [slot conditional_buffer i; slot conditional_buffer i;
        slot conditional_buffer i]
  /\ exists a' sub,
       ProcessFrame t i a = Some a'
       /\ render_queue (app_ a') = render_queue (app_ a) ++ [sub]
       /\ sub_command_buffer sub = command_buffer_ (frame n i)
       /\ sub_memory sub !! slot conditional_buffer i = Some [0]
       /\ sub_memory sub !! slot dispatch_buffer i = Some [float_0_0f]
       /\ dispatched_regions (sub_events sub) = []
       /\ sub_events sub
          = [ Cleared clear_color2;
              Drawn 1
                (projection_matrix (set_value_ (camera_data_ (sample_ a))))
                (rotate t (transform (set_value_ (model_data_ (sample_ a)))))
                [float_0_0f] ]
       /\ device (app_ a') !! slot dispatch_buffer i = Some [float_0_0f].
Proof.
  intros Hreach Hi Hzero. apply reachable_invariant in Hreach.
  rewrite record_commands_eq. cbn [cb_commands].
  split; [reflexivity|]. split; [reflexivity|].
  destruct (ProcessFrame_run n a t i Hreach Hi)
    as (s' & app' & sub & _ & _ & Hrun & _ & Q & CB & _ & _ & Mk & Md & _
        & Ev & Dv & _).
  cbn [to_words ConditionalRenderingData_pod] in Mk.
  rewrite Hzero in Mk, Ev, Dv.
  eexists _, sub. split; [exact Hrun|]. cbn [app_].
  split; [done|]. split; [by rewrite CB, record_commands_eq|].
  split; [exact Mk|]. split; [exact Md|].
  rewrite Ev, Dv. by repeat split.
Qed.


(** ** Execution of a frame, in closed form *)

Lemma exec_commands_fail fd c cs g :
  exec_command fd c g = None -> exec_commands fd (c :: cs) g = None.
Proof. intros Hstep. cbn [exec_commands]. by rewrite Hstep. Qed.

Lemma begin_conditional_fail info g :
  gpu_memory g !! (cr_buffer info, cr_offset info) = None
  \/ gpu_memory g !! (cr_buffer info, cr_offset info) = Some [] ->
  begin_conditional info g = None.
Proof.
  intros [Hv|Hv]; unfold begin_conditional; rewrite Hv;
    by destruct (gpu_predicate g).
Qed.

Lemma dispatch_fail g set info :
  gpu_predicate g = Some true ->
  gpu_compute_set g = Some set ->
  set !! 0%N
  = Some (BufferDescriptor VK_DESCRIPTOR_TYPE_STORAGE_BUFFER info) ->
  gpu_memory g !! (dbi_buffer info, dbi_offset info) = None ->
  dispatch g = None.
Proof.
  intros Hp Hcs Hset Hws. unfold dispatch, discarded. rewrite Hp, Hcs.
  cbn [mbind option_bind]. rewrite Hset. cbn [mbind option_bind].
  by rewrite Hws.
Qed.

Lemma draw_model_fail k g set ci mi view :
  gpu_predicate g = Some true ->
  gpu_graphics_set g = Some set ->
  set !! 0%N
  = Some (BufferDescriptor VK_DESCRIPTOR_TYPE_UNIFORM_BUFFER ci) ->
  set !! 1%N
  = Some (BufferDescriptor VK_DESCRIPTOR_TYPE_UNIFORM_BUFFER mi) ->
  set !! 2%N
  = Some (TexelBufferDescriptor VK_DESCRIPTOR_TYPE_UNIFORM_TEXEL_BUFFER
            view) ->
  gpu_memory g !! (dbi_buffer ci, dbi_offset ci) = None
  \/ gpu_memory g !! (dbi_buffer mi, dbi_offset mi) = None
  \/ gpu_memory g !! (bv_buffer view, bv_offset view) = None ->
  draw_model k g = None.
Proof.
  intros Hp Hgs H0 H1 H2 Hmiss. unfold draw_model, discarded.
  rewrite Hp, Hgs. cbn [mbind option_bind].
  unfold uniform_words, texel_words. rewrite H0, H1, H2.
  cbn [mbind option_bind].
  destruct (gpu_memory g !! (dbi_buffer ci, dbi_offset ci)) as [c|];
    [|done].
  cbn [mbind option_bind].
  destruct (gpu_memory g !! (dbi_buffer mi, dbi_offset mi)) as [m|];
    [|done].
  cbn [mbind option_bind]. by destruct Hmiss as [?|[?| ->]].
Qed.

Lemma dispatch_skip g :
  gpu_predicate g = Some false -> dispatch g = Some g.
Proof. intros Hp. unfold dispatch, discarded. by rewrite Hp. Qed.

Lemma draw_model_skip k g :
  gpu_predicate g = Some false -> draw_model k g = Some g.
Proof. intros Hp. unfold draw_model, discarded. by rewrite Hp. Qed.

Ltac gpu_fail tac :=
  apply exec_commands_fail; cbn [exec_command]; tac.
Ltac gpu_fail_draw H :=
  gpu_fail ltac:(eapply draw_model_fail;
                 [reflexivity|reflexivity|reflexivity|reflexivity
                 |reflexivity|exact H]).
Ltac gpu_skip_dispatch :=
  gpu_next ltac:(apply dispatch_skip; reflexivity).
Ltac gpu_skip_draw :=
  gpu_next ltac:(apply draw_model_skip; reflexivity).

Lemma execute_frame_eq n i dev :
  execute (frame n i) dev
  = ws ← dev !! slot conditional_buffer i;
    v ← head ws;
    scratch ← dev !! slot dispatch_buffer i;
    c ← dev !! slot camera_buffer i;
    m ← dev !! slot model_buffer i;
    Some (mkGpu (frame_memory i v scratch dev) None
            (Some (compute_descriptor_set_ (frame n i)))
            (Some (cube_descriptor_set_ (frame n i)))
            (frame_events i v c m scratch)).
Proof.
  destruct (dev !! slot conditional_buffer i) as [[|v rest]|] eqn:Hc;
    cbn [mbind option_bind head].
  1, 3: unfold execute; rewrite record_commands_eq;
    cbn [cb_state cb_commands]; gpu_plain;
    gpu_fail ltac:(apply begin_conditional_fail); auto.
  destruct (dev !! slot dispatch_buffer i) as [ws|] eqn:Hd;
    cbn [mbind option_bind];
    [destruct (dev !! slot camera_buffer i) as [c|] eqn:Hcam;
     cbn [mbind option_bind];
     [destruct (dev !! slot model_buffer i) as [m|] eqn:Hm;
      cbn [mbind option_bind]|]|].
  - rewrite (execute_frame n i dev v rest ws c m Hc Hd Hcam Hm).
    unfold frame_memory, frame_events. by destruct (v =? 0).
  - (* the model region is missing *)
    unfold execute. rewrite record_commands_eq. cbn [cb_state cb_commands].
    gpu_plain. gpu_begin Hc. gpu_plain. gpu_plain. gpu_dispatch Hd.
    destruct (v =? 0) eqn:Hv; gpu_state.
    + gpu_end. gpu_plain. gpu_plain. gpu_plain. gpu_plain.
      gpu_begin Hc. rewrite Hv. gpu_clear. gpu_skip_draw. gpu_end.
      gpu_begin Hc. rewrite Hv. gpu_clear.
      gpu_fail_draw (or_intror (A := dev !! slot camera_buffer i = None)
                       (or_introl
                          (B := dev !! slot dispatch_buffer i = None) Hm)).
    + set (dev' := <[slot dispatch_buffer i := compute_shader ws]> dev).
      assert (Hc' : dev' !! slot conditional_buffer i = Some (v :: rest))
        by (subst dev'; rewrite lookup_insert_ne; [exact Hc|by intros [=]]).
      assert (Hm' : dev' !! slot model_buffer i = None)
        by (subst dev'; rewrite lookup_insert_ne; [exact Hm|by intros [=]]).
      gpu_end. gpu_plain. gpu_plain. gpu_plain. gpu_plain.
      gpu_begin Hc'. rewrite Hv. gpu_clear.
      gpu_fail_draw (or_intror (A := dev' !! slot camera_buffer i = None)
                       (or_introl
                          (B := dev' !! slot dispatch_buffer i = None)
                          Hm')).
  - (* the camera region is missing *)
    unfold execute. rewrite record_commands_eq. cbn [cb_state cb_commands].
    gpu_plain. gpu_begin Hc. gpu_plain. gpu_plain. gpu_dispatch Hd.
    destruct (v =? 0) eqn:Hv; gpu_state.
    + gpu_end. gpu_plain. gpu_plain. gpu_plain. gpu_plain.
      gpu_begin Hc. rewrite Hv. gpu_clear. gpu_skip_draw. gpu_end.
      gpu_begin Hc. rewrite Hv. gpu_clear.
      gpu_fail_draw (or_introl
                       (B := dev !! slot model_buffer i = None
                             \/ dev !! slot dispatch_buffer i = None)
                       Hcam).
    + set (dev' := <[slot dispatch_buffer i := compute_shader ws]> dev).
      assert (Hc' : dev' !! slot conditional_buffer i = Some (v :: rest))
        by (subst dev'; rewrite lookup_insert_ne; [exact Hc|by intros [=]]).
      assert (Hcam' : dev' !! slot camera_buffer i = None)
        by (subst dev'; rewrite lookup_insert_ne;
            [exact Hcam|by intros [=]]).
      gpu_end. gpu_plain. gpu_plain. gpu_plain. gpu_plain.
      gpu_begin Hc'. rewrite Hv. gpu_clear.
      gpu_fail_draw (or_introl
                       (B := dev' !! slot model_buffer i = None
                             \/ dev' !! slot dispatch_buffer i = None)
                       Hcam').
  - (* the scratch region is missing *)
    unfold execute. rewrite record_commands_eq. cbn [cb_state cb_commands].
    gpu_plain. gpu_begin Hc. gpu_plain. gpu_plain.
    destruct (v =? 0) eqn:Hv; gpu_state.
    + gpu_skip_dispatch. gpu_end. gpu_plain. gpu_plain. gpu_plain.
      gpu_plain. gpu_begin Hc. rewrite Hv. gpu_clear. gpu_skip_draw.
      gpu_end. gpu_begin Hc. rewrite Hv. gpu_clear.
      gpu_fail_draw (or_intror (A := dev !! slot camera_buffer i = None)
                       (or_intror
                          (A := dev !! slot model_buffer i = None) Hd)).
    + gpu_fail ltac:(eapply dispatch_fail;
                     [reflexivity|reflexivity|reflexivity|exact Hd]).
Qed.


(** ** Further properties of a frame's execution *)

(** X1.  Executing the command buffer of slot [i] is defined exactly
    when the four regions of copy [i] hold something and the condition
    region holds at least one word; a slot that was never uploaded makes
    the frame undefined, whatever the other slots hold. *)
Theorem execute_defined_iff n i dev :
  is_Some (execute (frame n i) dev)
  <-> (exists v rest,
         dev !! slot conditional_buffer i = Some (v :: rest))
      /\ is_Some (dev !! slot dispatch_buffer i)
      /\ is_Some (dev !! slot camera_buffer i)
      /\ is_Some (dev !! slot model_buffer i).
Proof.
  rewrite execute_frame_eq.
  destruct (dev !! slot conditional_buffer i) as [[|v rest]|];
    cbn [mbind option_bind head].
  1, 3: split; [by intros [? [=]]|by intros [(? & ? & [=]) _]].
  destruct (dev !! slot dispatch_buffer i) as [ws|];
    cbn [mbind option_bind];
    [|split; [by intros [? [=]]|by intros (_ & [? [=]] & _)]].
  destruct (dev !! slot camera_buffer i) as [c|];
    cbn [mbind option_bind];
    [|split; [by intros [? [=]]|by intros (_ & _ & [? [=]] & _)]].
  destruct (dev !! slot model_buffer i) as [m|];
    cbn [mbind option_bind];
    [|split; [by intros [? [=]]|by intros (_ & _ & _ & [? [=]])]].
  split; [|by eexists]. intros _. repeat split; by eauto.
Qed.

(** X2.  A frame reads nothing but the four regions of its own slot and
    writes nothing but its own scratch region: on two device memories
    that agree on the regions of copy [i], the command buffer of slot
    [i] is defined on both or on neither, produces the same events and
    leaves the same scratch region, and every other region of either
    memory is left as it was. *)
Theorem frame_isolation n i dev dev' :
  (forall b, dev !! slot b i = dev' !! slot b i) ->
  gpu_events <$> execute (frame n i) dev
  = gpu_events <$> execute (frame n i) dev'
  /\ (fun g => gpu_memory g !! slot dispatch_buffer i)
       <$> execute (frame n i) dev
     = (fun g => gpu_memory g !! slot dispatch_buffer i)
         <$> execute (frame n i) dev'
  /\ (forall g k,
        execute (frame n i) dev = Some g ->
        k <> slot dispatch_buffer i -> gpu_memory g !! k = dev !! k).
Proof.
  intros Hsame. rewrite !execute_frame_eq, <-!Hsame.
  destruct (dev !! slot conditional_buffer i) as [[|v rest]|];
    cbn [mbind option_bind head fmap option_fmap option_map]; try done.
  destruct (dev !! slot dispatch_buffer i) as [ws|] eqn:Hd;
    cbn [mbind option_bind fmap option_fmap option_map]; [|done].
  destruct (dev !! slot camera_buffer i) as [c|];
    cbn [mbind option_bind fmap option_fmap option_map]; [|done].
  destruct (dev !! slot model_buffer i) as [m|];
    cbn [mbind option_bind fmap option_fmap option_map gpu_events
         gpu_memory]; [|done].
  split; [done|]. split.
  - f_equal. unfold frame_memory. destruct (v =? 0).
    + by rewrite <-Hsame.
    + by rewrite !lookup_insert_eq.
  - intros g k [= <-] Hk. cbn [gpu_memory].
    by apply frame_memory_other.
Qed.


(** ** Further properties of the frame loop *)

Lemma UpdateBuffer_host {T} `{Pod T} (b : BufferFrameData T) i force dev
    b' dev' :
  UpdateBuffer kMaxOffsetAlignment b i force dev = Some (b', dev') ->
  get_buffer b' = get_buffer b
  /\ usage b' = usage b
  /\ buffered_data_count b' = buffered_data_count b
  /\ set_value_ b' = set_value_ b
  /\ length (uninitialized_ b') = length (uninitialized_ b)
  /\ (i < length (uninitialized_ b))%nat.
Proof.
  unfold UpdateBuffer. intros Hupd.
  destruct (uninitialized_ b !! i) as [stale|] eqn:Hstale; [|done].
  apply lookup_lt_Some in Hstale. cbn [mbind option_bind] in Hupd.
  destruct (stale || force); injection Hupd as <- <-;
    cbn [get_buffer usage buffered_data_count set_value_ uninitialized_];
    by rewrite ?length_insert.
Qed.

Lemma Render_host i fd s app s' app' :
  Render i fd s app = Some (s', app') ->
  (set_value_ (camera_data_ s') = set_value_ (camera_data_ s)
   /\ set_value_ (model_data_ s') = set_value_ (model_data_ s)
   /\ set_value_ (conditional_data_ s') = set_value_ (conditional_data_ s)
   /\ set_value_ (dispatch_data_ s') = set_value_ (dispatch_data_ s)
   /\ frames_since_last_notify_ s' = frames_since_last_notify_ s)
  /\ (get_buffer (camera_data_ s') = get_buffer (camera_data_ s)
      /\ get_buffer (model_data_ s') = get_buffer (model_data_ s)
      /\ get_buffer (conditional_data_ s')
         = get_buffer (conditional_data_ s)
      /\ get_buffer (dispatch_data_ s') = get_buffer (dispatch_data_ s))
  /\ (i < length (uninitialized_ (camera_data_ s))
      /\ i < length (uninitialized_ (model_data_ s))
      /\ i < length (uninitialized_ (conditional_data_ s))
      /\ i < length (uninitialized_ (dispatch_data_ s)))%nat
  /\ cb_state (command_buffer_ fd) = Executable
  /\ exists sub,
       render_queue app' = render_queue app ++ [sub]
       /\ sub_command_buffer sub = command_buffer_ fd.
Proof.
  unfold Render. intros HR.
  destruct (UpdateBuffer _ (camera_data_ s) i false (device app))
    as [[b1 d1]|] eqn:E1; [|done].
  cbn [mbind option_bind] in HR.
  destruct (UpdateBuffer _ (model_data_ s) i false d1)
    as [[b2 d2]|] eqn:E2; [|done].
  cbn [mbind option_bind] in HR.
  destruct (UpdateBuffer _ (conditional_data_ s) i false d2)
    as [[b3 d3]|] eqn:E3; [|done].
  cbn [mbind option_bind] in HR.
  destruct (UpdateBuffer _ (dispatch_data_ s) i true d3)
    as [[b4 d4]|] eqn:E4; [|done].
  cbn [mbind option_bind] in HR. unfold vkQueueSubmit in HR.
  cbn [device render_queue] in HR.
  destruct (execute fd d4) as [g|] eqn:Hexec; [|done].
  cbn [mbind option_bind] in HR. injection HR as <- <-.
  apply UpdateBuffer_host in E1 as (? & _ & _ & ? & _ & ?).
  apply UpdateBuffer_host in E2 as (? & _ & _ & ? & _ & ?).
  apply UpdateBuffer_host in E3 as (? & _ & _ & ? & _ & ?).
  apply UpdateBuffer_host in E4 as (? & _ & _ & ? & _ & ?).
  cbn [camera_data_ model_data_ conditional_data_ dispatch_data_
       frames_since_last_notify_ render_queue].
  split; [done|]. split; [done|]. split; [done|]. split.
  - unfold execute in Hexec. by destruct (cb_state (command_buffer_ fd)).
  - by eexists.
Qed.

Lemma ProcessFrame_host t i a a' :
  ProcessFrame t i a = Some a' ->
  projection_matrix (set_value_ (camera_data_ (sample_ a')))
  = projection_matrix (set_value_ (camera_data_ (sample_ a)))
  /\ transform (set_value_ (model_data_ (sample_ a')))
     = rotate t (transform (set_value_ (model_data_ (sample_ a))))
  /\ frames_since_last_notify_ (sample_ a')
     = uint32 (frames_since_last_notify_ (sample_ a) + 1).
Proof.
  unfold ProcessFrame. intros Hstep.
  destruct (frame_data_ a !! i) as [fd|]; [|done].
  cbn [mbind option_bind] in Hstep.
  destruct (Render i fd (Update t (sample_ a)) (app_ a))
    as [[s' app']|] eqn:HR; [|done].
  cbn [mbind option_bind] in Hstep. injection Hstep as <-.
  apply Render_host in HR as ((Vc & Vm & _ & _ & Fr) & _).
  cbn [sample_]. by rewrite Vc, Vm, Fr.
Qed.

Lemma reachable_projection n a :
  reachable n a ->
  projection_matrix (set_value_ (camera_data_ (sample_ a)))
  = initial_projection.
Proof.
  induction 1 as [|a t i a' _ IH Hstep]; [reflexivity|].
  apply ProcessFrame_host in Hstep as (-> & _). exact IH.
Qed.

Lemma run_events_from n frames a0 a :
  reachable n a0 -> run frames a0 = Some a ->
  sub_events <$> render_queue (app_ a)
  = (sub_events <$> render_queue (app_ a0))
    ++ expected_events (frames_since_last_notify_ (sample_ a0))
         (transform (set_value_ (model_data_ (sample_ a0)))) frames
  /\ sub_command_buffer <$> render_queue (app_ a)
     = (sub_command_buffer <$> render_queue (app_ a0))
       ++ ((fun f => command_buffer_ (frame n f.2)) <$> frames).
Proof.
  revert a0. induction frames as [|[t i] frames IH]; intros a0 Hreach Hrun.
  - injection Hrun as <-. cbn [expected_events fmap list_fmap].
    by rewrite !app_nil_r.
  - cbn [run] in Hrun.
    destruct (ProcessFrame t i a0) as [a1|] eqn:Hstep; [|done].
    cbn [mbind option_bind] in Hrun.
    destruct (IH a1 (reachable_ProcessFrame _ _ _ _ _ Hreach Hstep) Hrun)
      as [Hev Hcb].
    pose proof (ProcessFrame_host _ _ _ _ Hstep) as (_ & Hm & Hf).
    pose proof (reachable_projection _ _ Hreach) as Hproj.
    pose proof (reachable_invariant _ _ Hreach) as Hinv.
    pose proof (ProcessFrame_index _ _ _ _ _ Hinv Hstep) as Hi.
    destruct (ProcessFrame_run n a0 t i Hinv Hi)
      as (s' & app' & sub & _ & _ & Hrun' & _ & Q & CB & _ & _ & _ & _
          & _ & Ev & _).
    rewrite Hrun' in Hstep. injection Hstep as <-.
    cbn [app_ sample_] in Hev, Hcb, Hm, Hf.
    rewrite Hev, Hcb, Q, Hm, Hf, !fmap_app, <-!app_assoc.
    cbn [fmap list_fmap app expected_events]. rewrite Ev, CB.
    cbn [to_words CameraData_pod ModelData_pod DispatchData_pod].
    split; [|done]. do 2 f_equal.
    change (projection_matrix (set_value_ (camera_data_ (Update t (sample_ a0)))))
      with (projection_matrix (set_value_ (camera_data_ (sample_ a0)))).
    by rewrite Hproj.
Qed.

(** X3.  The events of a whole run, in closed form: frame number [k]
    submits the command buffer of the slot it renders, and what the GPU
    does with it depends only on [k] (through the flag), on the time
    steps up to [k] (through the model matrix) and on the slot: the
    projection is always the initial one and the scratch word the draw
    starts from is always the host's 0, never a value left by an
    earlier frame. *)
Theorem run_events n frames a :
  run frames (Initialize n) = Some a ->
  sub_events <$> render_queue (app_ a)
  = expected_events 0 initial_transform frames
  /\ sub_command_buffer <$> render_queue (app_ a)
     = (fun f => command_buffer_ (frame n f.2)) <$> frames
  /\ length (render_queue (app_ a)) = length frames.
Proof.
  intros Hrun.
  destruct (run_events_from n frames _ _ (reachable_Initialize n) Hrun)
    as [Hev Hcb].
  split; [exact Hev|]. split; [exact Hcb|].
  change (sub_command_buffer <$> render_queue (app_ (Initialize n)))
    with (@nil VkCommandBuffer) in Hcb. cbn [app] in Hcb.
  apply (f_equal length) in Hcb. rewrite !length_fmap in Hcb. exact Hcb.
Qed.

Lemma run_defined_from n frames a0 :
  invariant n a0 ->
  is_Some (run frames a0) <-> Forall (fun f => (f.2 < n)%nat) frames.
Proof.
  revert a0. induction frames as [|[t i] frames IH]; intros a0 Hinv.
  - split; [constructor|by eexists].
  - cbn [run]. rewrite Forall_cons. cbn [snd]. split.
    + intros [a Hrun].
      destruct (ProcessFrame t i a0) as [a1|] eqn:Hstep; [|done].
      pose proof (ProcessFrame_index _ _ _ _ _ Hinv Hstep) as Hi.
      split; [done|]. apply (IH a1); [|by eexists].
      destruct (ProcessFrame_run n a0 t i Hinv Hi)
        as (s' & app' & sub & _ & _ & Hrun' & Hinv' & _).
      rewrite Hrun' in Hstep. by injection Hstep as <-.
    + intros [Hi Hall].
      destruct (ProcessFrame_run n a0 t i Hinv Hi)
        as (s' & app' & sub & _ & _ & -> & Hinv' & _).
      cbn [mbind option_bind]. by apply IH.
Qed.

(** X4.  A run is defined exactly when every image index it is given is
    below the number of swapchain images: with indices in range the
    frame loop never gets stuck, and an index out of range (which has
    no frame data and no buffer copy) is the only thing that makes it
    undefined. *)
Theorem run_defined_iff n frames :
  is_Some (run frames (Initialize n))
  <-> Forall (fun f => (f.2 < n)%nat) frames.
Proof. apply run_defined_from, Initialize_invariant. Qed.


Lemma slot_or_not (k : VkBuffer * N) i :
  k = slot k.1 i \/ (forall b, k <> slot b i).
Proof.
  destruct (decide (k = slot k.1 i)) as [Heq|Hne]; [by left|right].
  intros b ->. by apply Hne.
Qed.

(** X5.  Device memory only ever holds what the sample puts there: in
    every state the application reaches, each region that holds
    something is the region of a copy below the number of swapchain
    images; a camera region holds the initial projection, a condition
    region the word 0 or 1, and a scratch region either the host's 0 or
    what the compute shader makes of that 0. *)
Theorem reachable_memory n a :
  reachable n a ->
  map_Forall
    (fun region ws =>
       region_sane region ws
       /\ exists j, (j < n)%nat /\ region = slot region.1 j)
    (device (app_ a)).
Proof.
  intros Hreach.
  induction Hreach as [|a t i a' Hreach IH Hstep]; [apply map_Forall_empty|].
  pose proof (reachable_projection _ _ Hreach) as Hproj.
  apply reachable_invariant in Hreach.
  pose proof (ProcessFrame_index _ _ _ _ _ Hreach Hstep) as Hi.
  destruct (ProcessFrame_run n a t i Hreach Hi)
    as (s' & app' & sub & _ & _ & Hrun & _ & _ & _ & Mc & Mm & Mk & Md
        & Mo & _ & Dv & _).
  rewrite Hrun in Hstep. injection Hstep as <-. cbn [app_].
  assert (Hsub :
    map_Forall
      (fun region ws =>
         region_sane region ws
         /\ exists j, (j < n)%nat /\ region = slot region.1 j)
      (sub_memory sub)).
  { intros [kb ko] ws Hk.
    destruct (slot_or_not (kb, ko) i) as [Heq|Hne].
    - split; [|by exists i]. cbn [fst] in Heq. rewrite Heq in Hk.
      unfold region_sane. cbn [fst].
      destruct kb; rewrite ?Mc, ?Mm, ?Mk, ?Md in Hk; injection Hk as <-.
      + exact Hproj.
      + done.
      + by left.
      + cbn [to_words ConditionalRenderingData_pod Update condition
             set_value_ conditional_data_ data_assign].
        destruct (_ <? 60); [by right|by left].
    - rewrite Mo in Hk by done. by apply IH. }
  rewrite Dv. unfold frame_memory. destruct (_ =? 0); [exact Hsub|].
  apply map_Forall_insert_2; [|exact Hsub].
  split; [by right|by exists i].
Qed.

(** X6.  The flag is always 0 or 1; while the 32-bit counter has not
    wrapped it flips every 60 calls of [Update] and repeats every 120;
    and whatever happens at the wrap, it repeats every [2^32] calls. *)
Theorem flag_flips_every_60 k times n :
  let flag m :=
    condition
      (set_value_
         (conditional_data_
            (Update_n times m (InitializeApplicationData k)))) in
  (flag n = 0 \/ flag n = 1)
  /\ ((n + 60 < 2 ^ 32)%N -> flag (n + 60)%N = 1 - flag n)
  /\ ((n + 120 < 2 ^ 32)%N -> flag (n + 120)%N = flag n)
  /\ flag (n + 2 ^ 32)%N = flag n.
Proof.
  intros flag. subst flag. cbv beta. rewrite !Update_n_condition.
  unfold uint32. split; [by destruct (_ <? 60); [right|left]|].
  split; [|split]; [intros Hn|intros Hn|].
  - rewrite (Z.mod_small (Z.of_N (n + 60)) (2 ^ 32)),
      (Z.mod_small (Z.of_N n) (2 ^ 32)) by lia.
    rewrite N2Z.inj_add. change (Z.of_N 60) with 60.
    destruct (Z.ltb_spec ((Z.of_N n + 60) mod 120) 60),
             (Z.ltb_spec (Z.of_N n mod 120) 60); cbn [Z.b2z];
      try done; exfalso; Z.div_mod_to_equations; lia.
  - rewrite (Z.mod_small (Z.of_N (n + 120)) (2 ^ 32)),
      (Z.mod_small (Z.of_N n) (2 ^ 32)) by lia.
    rewrite N2Z.inj_add. change (Z.of_N 120) with 120.
    replace ((Z.of_N n + 120) mod 120) with (Z.of_N n mod 120); [done|].
    rewrite <-(Z.mul_1_l 120) at 2. by rewrite Z.mod_add.
  - rewrite N2Z.inj_add. change (Z.of_N (2 ^ 32)) with (1 * 2 ^ 32).
    by rewrite Z.mod_add.
Qed.

(** X7.  Whatever frame data and state it is called with, a [Render]
    that returns has left every host-side value, the frame counter and
    the buffer handles as they were, has been given an executable
    command buffer and an index for which all four buffers have a copy,
    and has appended exactly one submission, of that command buffer, to
    the queue, keeping the earlier ones. *)
Theorem Render_only_uploads_and_submits i fd s app s' app' :
  Render i fd s app = Some (s', app') ->
  (set_value_ (camera_data_ s') = set_value_ (camera_data_ s)
   /\ set_value_ (model_data_ s') = set_value_ (model_data_ s)
   /\ set_value_ (conditional_data_ s') = set_value_ (conditional_data_ s)
   /\ set_value_ (dispatch_data_ s') = set_value_ (dispatch_data_ s)
   /\ frames_since_last_notify_ s' = frames_since_last_notify_ s)
  /\ (get_buffer (camera_data_ s') = get_buffer (camera_data_ s)
      /\ get_buffer (model_data_ s') = get_buffer (model_data_ s)
      /\ get_buffer (conditional_data_ s')
         = get_buffer (conditional_data_ s)
      /\ get_buffer (dispatch_data_ s') = get_buffer (dispatch_data_ s))
  /\ (i < length (uninitialized_ (camera_data_ s))
      /\ i < length (uninitialized_ (model_data_ s))
      /\ i < length (uninitialized_ (conditional_data_ s))
      /\ i < length (uninitialized_ (dispatch_data_ s)))%nat
  /\ cb_state (command_buffer_ fd) = Executable
  /\ exists sub,
       render_queue app' = render_queue app ++ [sub]
       /\ sub_command_buffer sub = command_buffer_ fd.
Proof. apply Render_host. Qed.


(** ** Further properties of the recorded frame data *)


(** X9.  Every buffer is used only in ways it was created for: the
    buffer behind each descriptor of a slot has the usage bit of that
    descriptor's type (uniform buffer, uniform texel buffer, storage
    buffer), and the buffer each conditional block reads has the
    conditional-rendering usage bit. *)
Theorem buffers_used_as_created n i :
  let s := InitializeApplicationData n in
  (forall h,
     map_Forall
       (fun _ d =>
          has_bits (buffer_usage s (descriptor_region d).1)
            (descriptor_usage (descriptor_type d)))
       (resolve (InitializeFrameData s i) h))
  /\ Forall
       (fun r =>
          has_bits (buffer_usage s r.1)
            VK_BUFFER_USAGE_CONDITIONAL_RENDERING_BIT_EXT)
       (conditional_regions
          (cb_commands (command_buffer_ (InitializeFrameData s i)))).
Proof.
  intros s. split.
  - intros []; cbn [resolve].
    + rewrite cube_set_eq.
      repeat (apply map_Forall_insert_2; [reflexivity|]).
      apply map_Forall_empty.
    + rewrite compute_set_eq. apply map_Forall_insert_2; [reflexivity|].
      apply map_Forall_empty.
  - rewrite record_commands_eq. cbn [cb_commands].
    repeat constructor.
Qed.

(** X10.  The command buffer of every slot is executable and keeps the
    rules of where commands go: the two barriers and the dispatch are
    outside the render pass, the clears and draws inside it; no
    conditional block is opened inside another, each is closed where it
    was opened (the first outside the render pass, the other two inside
    it) and none is open at the end; the dispatch and the draws each
    find their pipeline bound at their bind point, with descriptor sets
    bound through that pipeline's layout; the render pass is closed. *)
Theorem command_buffers_well_recorded n :
  Forall (fun fd => well_recorded (command_buffer_ fd) = true)
    (frame_data_ (Initialize n)).
Proof.
  cbn [Initialize frame_data_]. apply Forall_fmap, Forall_forall.
  intros i _. unfold compose. by rewrite record_commands_eq.
Qed.

Lemma RoundUp_ge x a : (0 < a)%N -> (x <= RoundUp x a < x + a)%N.
Proof.
  intros Ha. unfold RoundUp.
  pose proof (N.div_mod' (x + a - 1) a) as Hdiv.
  pose proof (N.mod_lt (x + a - 1) a ltac:(lia)) as Hmod.
  rewrite (N.mul_comm _ a).
  set (q := ((x + a - 1) / a)%N) in *.
  set (r := ((x + a - 1) mod a)%N) in *. clearbody q r. nia.
Qed.

(** X11.  With a non-zero alignment, every range of bytes that the
    frame data of slot [i] names (the range of each descriptor and of
    the texel buffer view, the extent of each barrier, the word each
    conditional block reads) is non-empty and lies inside copy [i] of
    its buffer, copies of different slots share no byte, and all [n]
    copies fit in [n] times the aligned size. *)
Theorem ranges_inside_own_copy n i :
  (0 < kMaxOffsetAlignment)%N -> (i < n)%nat ->
  (forall h,
     map_Forall (fun _ d => inside_copy i (descriptor_extent d))
       (resolve (frame n i) h))
  /\ inside_copy i
       (descriptor_extent
          (TexelBufferDescriptor VK_DESCRIPTOR_TYPE_UNIFORM_TEXEL_BUFFER
             (dispatch_data_buffer_view_ (frame n i))))
  /\ Forall (fun c => Forall (inside_copy i) (command_extents c))
       (cb_commands (command_buffer_ (frame n i)))
  /\ (forall b j, (j < i)%nat ->
        (slot_size b * N.of_nat (S j) <= slot_size b * N.of_nat i)%N)
  /\ (forall b, (slot_size b * N.of_nat (S i)
                 <= slot_size b * N.of_nat n)%N).
Proof.
  intros Ha Hi.
  assert (Hfit : forall b x,
            (0 < x)%N ->
            (x <= match b with
                  | camera_buffer => sizeof (T := CameraData)
                  | model_buffer => sizeof (T := ModelData)
                  | dispatch_buffer => sizeof (T := DispatchData)
                  | conditional_buffer =>
                      sizeof (T := ConditionalRenderingData)
                  end)%N ->
            inside_copy i (b, (slot_size b * N.of_nat i)%N, x)).
  { intros b x Hx Hle. unfold inside_copy, slot_size.
    pose proof (RoundUp_ge
                  match b with
                  | camera_buffer => sizeof (T := CameraData)
                  | model_buffer => sizeof (T := ModelData)
                  | dispatch_buffer => sizeof (T := DispatchData)
                  | conditional_buffer =>
                      sizeof (T := ConditionalRenderingData)
                  end kMaxOffsetAlignment Ha).
    nia. }
  assert (Hfull : forall b,
            inside_copy i (b, (slot_size b * N.of_nat i)%N, slot_size b)).
  { intros b. unfold inside_copy.
    pose proof (slot_size_pos b Ha). nia. }
  split; [|split; [|split; [|split]]].
  - intros []; cbn [resolve].
    + rewrite cube_set_eq.
      apply map_Forall_insert_2; [apply (Hfull dispatch_buffer)|].
      apply map_Forall_insert_2;
        [by apply (Hfit model_buffer 64%N)|].
      apply map_Forall_insert_2;
        [by apply (Hfit camera_buffer 64%N)|].
      apply map_Forall_empty.
    + rewrite compute_set_eq.
      apply map_Forall_insert_2;
        [by apply (Hfit dispatch_buffer 4%N)|].
      apply map_Forall_empty.
  - apply (Hfull dispatch_buffer).
  - rewrite record_commands_eq. cbn [cb_commands].
    repeat constructor;
      first [apply (Hfull dispatch_buffer)
            |by apply (Hfit conditional_buffer 4%N)].
  - intros b j Hj. apply N.mul_le_mono_l. lia.
  - intros b. apply N.mul_le_mono_l. lia.
Qed.


(** ** The run as a whole and the entry point *)

Lemma run_host_from n frames a0 a :
  reachable n a0 -> run frames a0 = Some a ->
  transform (set_value_ (model_data_ (sample_ a)))
  = foldl (fun m f => rotate f.1 m)
      (transform (set_value_ (model_data_ (sample_ a0)))) frames.
Proof.
  revert a0. induction frames as [|[t i] frames IH]; intros a0 Hreach Hrun.
  - by injection Hrun as <-.
  - cbn [run] in Hrun.
    destruct (ProcessFrame t i a0) as [a1|] eqn:Hstep; [|done].
    cbn [mbind option_bind] in Hrun.
    rewrite (IH a1 (reachable_ProcessFrame _ _ _ _ _ Hreach Hstep) Hrun).
    apply ProcessFrame_host in Hstep as (_ & -> & _). reflexivity.
Qed.

(** X12.  The host state after a run: the projection is still the
    initial one, the model matrix is the initial one rotated by each
    frame's time step in turn, the counter is the number of frames
    modulo [2^32], and the scratch value is 0. *)
Theorem run_host_state n frames a :
  run frames (Initialize n) = Some a ->
  projection_matrix (set_value_ (camera_data_ (sample_ a)))
  = initial_projection
  /\ transform (set_value_ (model_data_ (sample_ a)))
     = foldl (fun m f => rotate f.1 m) initial_transform frames
  /\ frames_since_last_notify_ (sample_ a)
     = Z.of_nat (length frames) mod 2 ^ 32
  /\ value (set_value_ (dispatch_data_ (sample_ a))) = float_0_0f.
Proof.
  intros Hrun.
  destruct (run_reachable n frames _ _ (reachable_Initialize n) Hrun)
    as [Hreach Hcount].
  split; [by apply (reachable_projection n)|].
  split; [exact (run_host_from n frames _ _ (reachable_Initialize n) Hrun)|].
  split; [exact Hcount|].
  clear Hrun Hcount. induction Hreach as [|a t i a' _ _ Hstep];
    [reflexivity|].
  unfold ProcessFrame in Hstep.
  destruct (frame_data_ a !! i) as [fd|]; [|done].
  cbn [mbind option_bind] in Hstep.
  destruct (Render i fd (Update t (sample_ a)) (app_ a))
    as [[s' app']|] eqn:HR; [|done].
  cbn [mbind option_bind] in Hstep. injection Hstep as <-.
  apply Render_host in HR as ((_ & _ & _ & Vd & _) & _).
  cbn [sample_]. by rewrite Vd.
Qed.

Lemma frame_loop_run n before turn after a0 :
  invariant n a0 ->
  Forall (fun turn =>
            should_exit turn = false /\ WindowClosing turn = false
            /\ (turn_image turn < n)%nat) before ->
  should_exit turn = true \/ WindowClosing turn = true ->
  exists a,
    frame_loop (before ++ turn :: after) a0 = Some a
    /\ run ((fun turn => (turn_time turn, turn_image turn)) <$> before) a0
       = Some a.
Proof.
  intros Hinv Hbefore Hexit. revert a0 Hinv.
  induction Hbefore as [|first before (Hse & Hwc & Hi) _ IH]; intros a0 Hinv.
  - exists a0. cbn [app frame_loop fmap list_fmap run].
    split; [|done].
    destruct Hexit as [-> | ->]; [done|by destruct (should_exit turn)].
  - cbn [app frame_loop fmap list_fmap run]. rewrite Hse, Hwc.
    cbn [negb andb].
    destruct (ProcessFrame_run n a0 (turn_time first) (turn_image first)
                Hinv Hi)
      as (s' & app' & sub & _ & _ & -> & Hinv' & _).
    cbn [mbind option_bind]. by apply IH.
Qed.

(** X13.  The entry point returns 0 at the first turn of its loop in
    which the sample wants to exit or the window is closing, provided
    the frames before it were given images in range: it has then logged
    the start-up and the shut-down, processed exactly the frames before
    that turn, one submission each, and nothing of what the
    surroundings would have answered afterwards. *)
Theorem main_entry_returns n before turn after :
  Forall (fun turn =>
            should_exit turn = false /\ WindowClosing turn = false
            /\ (turn_image turn < n)%nat) before ->
  should_exit turn = true \/ WindowClosing turn = true ->
  exists a,
    main_entry n (before ++ turn :: after)
    = Some (0, [Application_Startup; Application_Shutdown], a)
    /\ run ((fun turn => (turn_time turn, turn_image turn)) <$> before)
         (Initialize n)
       = Some a
    /\ length (render_queue (app_ a)) = length before.
Proof.
  intros Hbefore Hexit.
  destruct (frame_loop_run n before turn after (Initialize n)
              (Initialize_invariant n) Hbefore Hexit) as (a & Hloop & Hrun).
  exists a. unfold main_entry. rewrite Hloop. cbn [mbind option_bind app].
  split; [done|]. split; [done|].
  destruct (run_events_from n _ _ _ (reachable_Initialize n) Hrun)
    as [_ Hcb].
  apply (f_equal length) in Hcb.
  by rewrite length_app, !length_fmap in Hcb.
Qed.


End Sample.

(** ** The claims on a concrete instance

    Two swapchain images, copies aligned to 256 bytes, a 640x480
    swapchain, empty matrices, [example_rotate] and [example_shader]. *)

Abbreviation ex_Initialize := (Initialize 256 640 480 [] [] 2).
Abbreviation ex_frame :=
  (InitializeFrameData 256 640 480 (InitializeApplicationData [] [] 2)).
Abbreviation ex_reachable :=
  (reachable 256 640 480 [] [] example_rotate example_shader 2).
Abbreviation ex_ProcessFrame :=
  (ProcessFrame 256 example_rotate example_shader).
Abbreviation ex_run := (run 256 example_rotate example_shader).
Abbreviation ex_slot := (slot 256).

(** The first frame, on slot 0: the flag is 1, the dispatch runs and the
    first branch clears to cyan and draws two cubes. *)
Example first_frame :
  (fun a => sub_events <$> render_queue (app_ a))
    <$> ex_ProcessFrame 0 0%nat ex_Initialize
  = Some [ [ Dispatched (dispatch_buffer, 0%N) [float_1_0f];
             Cleared {| float32_0 := float_0_0f; float32_1 := float_1_0f;
                        float32_2 := float_1_0f; float32_3 := float_1_0f |};
             Drawn 2 [] [] [float_1_0f] ] ].
Proof. reflexivity. Qed.

(** Slot 1 starts 256 bytes into each buffer. *)
Example second_slot_regions :
  conditional_regions (cb_commands (command_buffer_ (ex_frame 1%nat)))
  = [(conditional_buffer, 256%N); (conditional_buffer, 256%N);
     (conditional_buffer, 256%N)]
  /\ command_regions
       (CmdPipelineBarrier VK_PIPELINE_STAGE_COMPUTE_SHADER_BIT
          VK_PIPELINE_STAGE_FRAGMENT_SHADER_BIT
          [to_use_in_frag 256 (InitializeApplicationData [] [] 2) 1])
     = [(dispatch_buffer, 256%N)].
Proof. split; reflexivity. Qed.

(** The counter wraps at [2^32]. *)
Example counter_wraps :
  frames_since_last_notify_
    (Update example_rotate 0
       (mkSample (BufferFrameData_new camera_buffer 1 0
                    {| projection_matrix := [] |})
          (BufferFrameData_new model_buffer 1 0 {| transform := [] |})
          (BufferFrameData_new dispatch_buffer 1 0 {| value := 0 |})
          (BufferFrameData_new conditional_buffer 1 0 {| condition := 0 |})
          (2 ^ 32 - 1)))
  = 0.
Proof. reflexivity. Qed.




(** A device memory in which copy 0 of every buffer holds something, the
    condition word being 0. *)
Abbreviation ex_memory :=
  (<[(model_buffer, 0%N) := [3]]>
     (<[(camera_buffer, 0%N) := [2]]>
        (<[(dispatch_buffer, 0%N) := [float_0_0f]]>
           (<[(conditional_buffer, 0%N) := [0]]> (∅ : Device))))).

Lemma C2_witness :
  (ex_memory !! ex_slot conditional_buffer 0 = Some [0]
   /\ ex_memory !! ex_slot dispatch_buffer 0 = Some [float_0_0f]
   /\ ex_memory !! ex_slot camera_buffer 0 = Some [2]
   /\ ex_memory !! ex_slot model_buffer 0 = Some [3])
  /\ let cyan := {| float32_0 := float_0_0f; float32_1 := float_1_0f;
                    float32_2 := float_1_0f; float32_3 := float_1_0f |} in
     let magenta := {| float32_0 := float_1_0f; float32_1 := float_0_0f;
                       float32_2 := float_1_0f; float32_3 := float_1_0f |} in
     let clear color :=
       CmdClearAttachments
         [ {| aspectMask := VK_IMAGE_ASPECT_COLOR_BIT;
              colorAttachment := 0;
              clearValue_color := color |} ] [clear_rect 640 480] in
     let begin flags :=
       CmdBeginConditionalRenderingEXT
         {| cr_buffer := conditional_buffer;
            cr_offset := (ex_slot conditional_buffer 0).2;
            cr_flags := flags |} in
     (exists pre,
        cb_commands (command_buffer_ (ex_frame 0%nat))
        = pre ++ [ begin 0; clear cyan; CmdDrawModel 2;
                   CmdEndConditionalRenderingEXT;
                   begin VK_CONDITIONAL_RENDERING_INVERTED_BIT_EXT;
                   clear magenta; CmdDrawModel 1;
                   CmdEndConditionalRenderingEXT;
                   CmdEndRenderPass ]
        /\ filter is_draw_or_clear pre = [])
     /\ exists g,
          execute example_shader (ex_frame 0%nat) ex_memory = Some g
          /\ filter is_render_event (gpu_events g)
             = if 0 =? 0 then [Cleared magenta; Drawn 1 [2] [3] [float_0_0f]]
               else [Cleared cyan;
                     Drawn 2 [2] [3] (example_shader [float_0_0f])].
Proof.
  split; [by repeat split|].
  apply (C2_two_branches_one_executes 256 640 480 [] [] example_shader 2
           0 ex_memory 0 [] [float_0_0f] [2] [3]); reflexivity.
Defined.

Lemma C3_witness :
  ex_reachable ex_Initialize
  /\ frame_data_ ex_Initialize = ex_frame <$> seq 0 2
  /\ Forall (fun sub => exists i, (i < 2)%nat
               /\ sub_command_buffer sub = command_buffer_ (ex_frame i))
       (render_queue (app_ ex_Initialize))
  /\ (forall t i, (i < 2)%nat ->
        exists a' sub,
          ex_ProcessFrame t i ex_Initialize = Some a'
          /\ frame_data_ a' = frame_data_ ex_Initialize
          /\ render_queue (app_ a')
             = render_queue (app_ ex_Initialize) ++ [sub]
          /\ sub_command_buffer sub = command_buffer_ (ex_frame i))
  /\ (forall t i a',
        ex_ProcessFrame t i ex_Initialize = Some a' ->
        frame_data_ a' = frame_data_ ex_Initialize).
Proof.
  split; [apply reachable_Initialize|].
  apply (C3_recorded_once_resubmitted 256 640 480 [] [] example_rotate
           example_shader 2 ex_Initialize).
  apply reachable_Initialize.
Defined.


(** C8 (as stated) fails once the 32-bit counter has wrapped: after
    [2^32 + 44] calls of [Update] the counter is 44 and the flag is 1,
    while [(2^32 + 44) mod 120 = 60]. *)
Lemma C8_counterexample :
  let n := (2 ^ 32 + 44)%N in
  let flag :=
    condition
      (set_value_
         (conditional_data_
            (Update_n example_rotate (fun _ => 0) n
               (InitializeApplicationData [] [] 2)))) in
  flag = 1 /\ Z.of_N n mod 120 = 60
  /\ ~ (flag = 1 <-> Z.of_N n mod 120 < 60).
Proof.
  intros n flag.
  assert (Hflag : flag = 1).
  { subst flag. rewrite Update_n_condition. reflexivity. }
  assert (Hmod : Z.of_N n mod 120 = 60) by reflexivity.
  split; [exact Hflag|]. split; [exact Hmod|].
  intros [Hlt _]. specialize (Hlt Hflag). lia.
Qed.

(** The sixtieth frame: the flag turns 0 and the frame's condition region
    gets that 0. *)
Lemma C8_witness :
  let flag :=
    condition
      (set_value_
         (conditional_data_
            (Update_n example_rotate (fun _ => 0) 60
               (InitializeApplicationData [] [] 2)))) in
  (60 < 2 ^ 32)%N
  /\ flag = 0
  /\ exists a,
       ex_run (replicate 59 (0, 0%nat) ++ [(0, 1%nat)]) ex_Initialize
       = Some a
       /\ condition (set_value_ (conditional_data_ (sample_ a))) = flag
       /\ exists sub,
            last (render_queue (app_ a)) = Some sub
            /\ sub_memory sub !! ex_slot conditional_buffer 1 = Some [flag].
Proof.
  intros flag.
  destruct (C8_condition_flag_period 256 640 480 [] [] example_rotate
              example_shader 2 (fun _ => 0) 60)
    as (Hflag & Hsmall & Hrun).
  split; [reflexivity|]. split; [exact Hflag|].
  destruct (ex_run (replicate 59 (0, 0%nat) ++ [(0, 1%nat)]) ex_Initialize)
    as [a|] eqn:Ha; [|by vm_compute in Ha].
  exists a. split; [reflexivity|].
  apply (Hrun (replicate 59 (0, 0%nat)) 0 1%nat a); [reflexivity|exact Ha].
Defined.


(** The sixtieth frame again: its condition flag is 0. *)
Lemma C10_witness :
  exists a,
    ex_run (replicate 59 (0, 0%nat)) ex_Initialize = Some a
    /\ (ex_reachable a /\ (1 < 2)%nat
        /\ condition
             (set_value_
                (conditional_data_ (Update example_rotate 0 (sample_ a))))
           = 0)
    /\ filter (fun '(_, c) => is_dispatch c)
         (annotate None (cb_commands (command_buffer_ (ex_frame 1%nat))))
       = [ (Some {| cr_buffer := conditional_buffer;
                    cr_offset := (ex_slot conditional_buffer 1).2;
                    cr_flags := 0 |},
            CmdDispatch 1 1 1) ]
    /\ conditional_regions (cb_commands (command_buffer_ (ex_frame 1%nat)))
       = [ex_slot conditional_buffer 1; ex_slot conditional_buffer 1;
          ex_slot conditional_buffer 1]
    /\ exists a' sub,
         ex_ProcessFrame 0 1%nat a = Some a'
         /\ render_queue (app_ a') = render_queue (app_ a) ++ [sub]
         /\ sub_command_buffer sub = command_buffer_ (ex_frame 1%nat)
         /\ sub_memory sub !! ex_slot conditional_buffer 1 = Some [0]
         /\ sub_memory sub !! ex_slot dispatch_buffer 1 = Some [float_0_0f]
         /\ dispatched_regions (sub_events sub) = []
         /\ sub_events sub
            = [ Cleared clear_color2;
                Drawn 1
                  (projection_matrix (set_value_ (camera_data_ (sample_ a))))
                  (example_rotate 0
                     (transform (set_value_ (model_data_ (sample_ a)))))
                  [float_0_0f] ]
         /\ device (app_ a') !! ex_slot dispatch_buffer 1
            = Some [float_0_0f].
Proof.
  destruct (ex_run (replicate 59 (0, 0%nat)) ex_Initialize) as [a|] eqn:Ha;
    [|by vm_compute in Ha].
  destruct (run_reachable 256 640 480 [] [] example_rotate example_shader 2
              _ _ _ (reachable_Initialize _ _ _ _ _ _ _ _) Ha)
    as [Hreach Hcount].
  assert (Hzero :
    condition
      (set_value_ (conditional_data_ (Update example_rotate 0 (sample_ a))))
    = 0) by (rewrite Update_condition, Hcount; reflexivity).
  exists a. split; [reflexivity|].
  split; [split; [exact Hreach|split; [lia|exact Hzero]]|].
  apply (C10_dispatch_skipped_when_condition_zero 256 640 480 [] []
           example_rotate example_shader 2 a 0 1%nat);
    [exact Hreach|lia|exact Hzero].
Defined.


(** ** The further properties on the concrete instance *)

(** [ex_memory] with something more in copy 1 of the dispatch and
    condition buffers. *)
Abbreviation ex_memory' :=
  (<[(dispatch_buffer, 256%N) := [7]]>
     (<[(conditional_buffer, 256%N) := [1]]> ex_memory)).

Lemma frame_isolation_witness :
  (forall b, ex_memory !! ex_slot b 0 = ex_memory' !! ex_slot b 0)
  /\ gpu_events <$> execute example_shader (ex_frame 0%nat) ex_memory
     = gpu_events <$> execute example_shader (ex_frame 0%nat) ex_memory'
  /\ (fun g => gpu_memory g !! ex_slot dispatch_buffer 0)
       <$> execute example_shader (ex_frame 0%nat) ex_memory
     = (fun g => gpu_memory g !! ex_slot dispatch_buffer 0)
         <$> execute example_shader (ex_frame 0%nat) ex_memory'
  /\ (forall g k,
        execute example_shader (ex_frame 0%nat) ex_memory = Some g ->
        k <> ex_slot dispatch_buffer 0 ->
        gpu_memory g !! k = ex_memory !! k).
Proof.
  split; [by intros []|].
  apply (frame_isolation 256 640 480 [] [] example_shader 2 0
           ex_memory ex_memory').
  by intros [].
Defined.

Lemma run_events_witness :
  exists a,
    ex_run [(0, 0%nat); (0, 1%nat)] ex_Initialize = Some a
    /\ sub_events <$> render_queue (app_ a)
       = expected_events 256 [] example_rotate example_shader 0 []
           [(0, 0%nat); (0, 1%nat)]
    /\ sub_command_buffer <$> render_queue (app_ a)
       = (fun f => command_buffer_ (ex_frame f.2))
           <$> [(0, 0%nat); (0, 1%nat)]
    /\ length (render_queue (app_ a)) = 2%nat.
Proof.
  destruct (ex_run [(0, 0%nat); (0, 1%nat)] ex_Initialize) as [a|] eqn:Ha;
    [|by vm_compute in Ha].
  exists a. split; [reflexivity|].
  exact (run_events 256 640 480 [] [] example_rotate example_shader 2
           [(0, 0%nat); (0, 1%nat)] a Ha).
Defined.

Lemma reachable_memory_witness :
  exists a,
    ex_ProcessFrame 0 0%nat ex_Initialize = Some a
    /\ ex_reachable a
    /\ device (app_ a) !! ex_slot dispatch_buffer 0 = Some [float_1_0f]
    /\ map_Forall
         (fun region ws =>
            region_sane [] example_shader region ws
            /\ exists j, (j < 2)%nat /\ region = ex_slot region.1 j)
         (device (app_ a)).
Proof.
  destruct (ex_ProcessFrame 0 0%nat ex_Initialize) as [a|] eqn:Ha;
    [|by vm_compute in Ha].
  assert (Hreach : ex_reachable a)
    by exact (reachable_ProcessFrame _ _ _ _ _ _ _ _ _ _ _ _
                (reachable_Initialize _ _ _ _ _ _ _ _) Ha).
  exists a. split; [reflexivity|]. split; [exact Hreach|].
  split; [by vm_compute in Ha; injection Ha as <-|].
  exact (reachable_memory 256 640 480 [] [] example_rotate example_shader
           2 a Hreach).
Defined.

Lemma Render_only_uploads_and_submits_witness :
  let s := Update example_rotate 0 (sample_ ex_Initialize) in
  let app := app_ ex_Initialize in
  exists s' app',
    Render 256 example_shader 0 (ex_frame 0%nat) s app = Some (s', app')
    /\ (set_value_ (camera_data_ s') = set_value_ (camera_data_ s)
        /\ set_value_ (model_data_ s') = set_value_ (model_data_ s)
        /\ set_value_ (conditional_data_ s')
           = set_value_ (conditional_data_ s)
        /\ set_value_ (dispatch_data_ s') = set_value_ (dispatch_data_ s)
        /\ frames_since_last_notify_ s' = frames_since_last_notify_ s)
    /\ (get_buffer (camera_data_ s') = get_buffer (camera_data_ s)
        /\ get_buffer (model_data_ s') = get_buffer (model_data_ s)
        /\ get_buffer (conditional_data_ s')
           = get_buffer (conditional_data_ s)
        /\ get_buffer (dispatch_data_ s') = get_buffer (dispatch_data_ s))
    /\ (0 < length (uninitialized_ (camera_data_ s))
        /\ 0 < length (uninitialized_ (model_data_ s))
        /\ 0 < length (uninitialized_ (conditional_data_ s))
        /\ 0 < length (uninitialized_ (dispatch_data_ s)))%nat
    /\ cb_state (command_buffer_ (ex_frame 0%nat)) = Executable
    /\ exists sub,
         render_queue app' = render_queue app ++ [sub]
         /\ sub_command_buffer sub = command_buffer_ (ex_frame 0%nat).
Proof.
  intros s app.
  destruct (Render 256 example_shader 0 (ex_frame 0%nat) s app)
    as [[s' app']|] eqn:HR; [|by vm_compute in HR].
  exists s', app'. split; [reflexivity|].
  exact (Render_only_uploads_and_submits 256 example_shader 0
           (ex_frame 0%nat) s app s' app' HR).
Defined.

Lemma ranges_inside_own_copy_witness :
  ((0 < 256)%N /\ (1 < 2)%nat)
  /\ (forall h,
        map_Forall (fun _ d => inside_copy 256 1 (descriptor_extent d))
          (resolve (ex_frame 1%nat) h))
  /\ inside_copy 256 1
       (descriptor_extent
          (TexelBufferDescriptor VK_DESCRIPTOR_TYPE_UNIFORM_TEXEL_BUFFER
             (dispatch_data_buffer_view_ (ex_frame 1%nat))))
  /\ Forall (fun c => Forall (inside_copy 256 1) (command_extents c))
       (cb_commands (command_buffer_ (ex_frame 1%nat)))
  /\ (forall b j, (j < 1)%nat ->
        (slot_size 256 b * N.of_nat (S j) <= slot_size 256 b * N.of_nat 1)%N)
  /\ (forall b, (slot_size 256 b * N.of_nat 2
                 <= slot_size 256 b * N.of_nat 2)%N).
Proof.
  split; [split; lia|].
  apply (ranges_inside_own_copy 256 640 480 [] [] 2 1); lia.
Defined.

Lemma run_host_state_witness :
  exists a,
    ex_run [(5, 0%nat); (6, 1%nat)] ex_Initialize = Some a
    /\ projection_matrix (set_value_ (camera_data_ (sample_ a))) = []
    /\ transform (set_value_ (model_data_ (sample_ a)))
       = foldl (fun m f => example_rotate f.1 m) []
           [(5, 0%nat); (6, 1%nat)]
    /\ frames_since_last_notify_ (sample_ a) = 2 mod 2 ^ 32
    /\ value (set_value_ (dispatch_data_ (sample_ a))) = float_0_0f.
Proof.
  destruct (ex_run [(5, 0%nat); (6, 1%nat)] ex_Initialize) as [a|] eqn:Ha;
    [|by vm_compute in Ha].
  exists a. split; [reflexivity|].
  exact (run_host_state 256 640 480 [] [] example_rotate example_shader 2
           [(5, 0%nat); (6, 1%nat)] a Ha).
Defined.

(** Two frames, then the sample asks to exit; the turn after that, with
    an image out of range, is never looked at. *)
Lemma main_entry_returns_witness :
  let before :=
    [ {| should_exit := false; WindowClosing := false;
         turn_time := 0; turn_image := 0 |};
      {| should_exit := false; WindowClosing := false;
         turn_time := 0; turn_image := 1 |} ] in
  let turn :=
    {| should_exit := true; WindowClosing := false;
       turn_time := 0; turn_image := 0 |} in
  let after :=
    [ {| should_exit := false; WindowClosing := false;
         turn_time := 0; turn_image := 5 |} ] in
  (Forall (fun turn =>
             should_exit turn = false /\ WindowClosing turn = false
             /\ (turn_image turn < 2)%nat) before
   /\ (should_exit turn = true \/ WindowClosing turn = true))
  /\ exists a,
       main_entry 256 640 480 [] [] example_rotate example_shader 2
         (before ++ turn :: after)
       = Some (0, [Application_Startup; Application_Shutdown], a)
       /\ ex_run ((fun turn => (turn_time turn, turn_image turn)) <$> before)
            ex_Initialize
          = Some a
       /\ length (render_queue (app_ a)) = length before.
Proof.
  intros before turn after.
  assert (Hbefore :
    Forall (fun turn =>
              should_exit turn = false /\ WindowClosing turn = false
              /\ (turn_image turn < 2)%nat) before)
    by (repeat constructor; cbn; lia).
  assert (Hexit : should_exit turn = true \/ WindowClosing turn = true)
    by (by left).
  split; [by split|].
  exact (main_entry_returns 256 640 480 [] [] example_rotate example_shader
           2 before turn after Hbefore Hexit).
Defined.
